(** * Advantech PCI CAN cards: attach/detach and register access

    A shallow embedding of the two driver files of the repository,

    - [Single]: [advantech_can_pci.c] (one layout: BAR 0 memory mapped,
      0x400 bytes per port), and
    - [Multi]: [drivers/net/can/sja1000/advantech_can_pci.c] (the
      generalisation to several card families through a [card_data] table),

    over a small model of the platform calls the drivers make ([Kernel]).
    A driver function is a computation in a state monad whose state holds
    the card record the driver data pointer refers to and the trace of
    platform calls made so far; the outcome of every call that can fail is
    read from an environment [env]. *)

From Stdlib Require Import ZArith Lia List Bool.
From Stdlib.Strings Require Import Byte String.
From stdpp Require Import base list gmap.
Import ListNotations.

Local Open Scope Z_scope.

(** ** Platform model *)

Module Kernel.

(** errno values (include/uapi/asm-generic/errno-base.h). *)
Definition ENOMEM : Z := 12.
Definition EBUSY : Z := 16.
Definition ENODEV : Z := 19.

(** A [struct net_device *] that is not NULL. NULL is [None]. *)
Definition handle := nat.

(** The two accessor pairs a driver can install in [priv->read_reg] and
    [priv->write_reg]. *)
Inductive accessor := acc_mem | acc_io.

(** Flags of sja1000.h the drivers OR together; kept symbolic. *)
Inductive ocr_flag := OCR_TX0_PUSHPULL | OCR_TX1_PUSHPULL.
Inductive cdr_flag := CDR_CBP | CDR_CLKOUT_MASK.
Inductive irq_flag := IRQF_SHARED.

(** The fields of [struct net_device] and of its [struct sja1000_priv]
    the probe functions assign before registering the device. *)
Record sja1000_priv := {
  reg_base : Z;
  regs : accessor;
  irq_flags : list irq_flag;
  clock_freq : Z;
  ocr : list ocr_flag;
  cdr : list cdr_flag;
  dev_irq : Z;
  dev_id : nat
}.

(** [struct pci_dev]: the fields read by the drivers. *)
Record pci_dev := { device : Z; irq : Z }.

(** Outcomes of the calls that can fail, fixed for one run. *)
Record env := {
  enable_ret : Z;                (* pci_enable_device: < 0 is failure *)
  kzalloc_ok : bool;             (* kzalloc: false is NULL *)
  request_region_ret : nat -> Z; (* pci_request_region, by BAR: 0 is success *)
  iomap_ret : nat -> Z;          (* pci_iomap, by BAR: 0 is NULL *)
  alloc_ok : nat -> bool;        (* alloc_sja1000dev in iteration i *)
  register_ret : nat -> Z        (* register_sja1000dev of port i: 0 is success *)
}.

(** One platform call, with its arguments and its result. *)
Inductive event :=
| pci_enable_device_ev (ret : Z)
| pci_disable_device_ev
| kzalloc_ev (ok : bool)
| kfree_ev
| pci_set_drvdata_ev
| pci_request_region_ev (bar : nat) (ret : Z)
| pci_release_region_ev (bar : nat)
| pci_iomap_ev (bar : nat) (addr : Z)
| pci_iounmap_ev (addr : Z)
| pci_disable_msi_ev
| alloc_sja1000dev_ev (dev : option handle)
| register_sja1000dev_ev (dev : handle) (priv : sja1000_priv) (ret : Z)
| unregister_sja1000dev_ev (dev : handle)
| free_sja1000dev_ev (dev : handle).

(** State threaded through a driver function: the card record (the
    object [pci_get_drvdata] returns; [kfree] does not erase it), the
    next fresh device handle, and the calls made so far. *)
Record world (C : Type) := World {
  card : C;
  next_dev : handle;
  trace : list event
}.
Arguments World {C}.
Arguments card {C}.
Arguments next_dev {C}.
Arguments trace {C}.

(** The state before the driver has made any call; [c] is whatever the
    memory that will hold the card record contains. *)
Definition boot {C} (c : C) : world C := World c 0%nat [].

Definition M (C A : Type) : Type := world C -> A * world C.

Definition ret {C A} (a : A) : M C A := fun w => (a, w).

Definition bind {C A B} (m : M C A) (k : A -> M C B) : M C B :=
  fun w => let (a, w') := m w in k a w'.

Definition emit {C} (e : event) : M C unit :=
  fun w => (tt, World (card w) (next_dev w) (trace w ++ [e])).

Definition get_card {C} : M C C := fun w => (card w, w).

Definition set_card {C} (c : C) : M C unit :=
  fun w => (tt, World c (next_dev w) (trace w)).

Definition fresh_dev {C} : M C handle :=
  fun w => (next_dev w, World (card w) (S (next_dev w)) (trace w)).

(** Register space behind a mapped BAR (or the I/O port space): one byte
    per address. [readb]/[inb] and [writeb]/[outb] are its only
    operations; an address never written reads as zero. *)
Definition IO (A : Type) : Type := gmap Z byte -> A * gmap Z byte.

Definition readb (addr : Z) : IO byte :=
  fun m => (default x00 (m !! addr), m).

Definition writeb (val : byte) (addr : Z) : IO unit :=
  fun m => (tt, <[addr := val]> m).

Definition inb (addr : Z) : IO byte := readb addr.

Definition outb (val : byte) (addr : Z) : IO unit := writeb val addr.

(** Arithmetic of C [int] (32 bits, two's complement, wrapping) and of
    C [unsigned]. *)
Definition int_wrap (z : Z) : Z := (z + 2 ^ 31) mod 2 ^ 32 - 2 ^ 31.
Definition uint_wrap (z : Z) : Z := z mod 2 ^ 32.

(** [for (i = 0; i < n; i++) body(i)] for a body that cannot leave the
    loop. *)
Fixpoint for_each {C} (idx : list nat) (body : nat -> M C unit) : M C unit :=
  match idx with
  | [] => ret tt
  | i :: rest => bind (body i) (fun _ => for_each rest body)
  end.

End Kernel.

Import Kernel.

Declare Scope drv_scope.
Delimit Scope drv_scope with drv.
Notation "'let*' x ':=' c1 'in' c2" := (bind c1 (fun x => c2))
  (at level 10, x name, c1 at level 100, c2 at level 200) : drv_scope.
Notation "c1 '>>' c2" := (bind c1 (fun _ => c2))
  (at level 100, c2 at level 200, right associativity) : drv_scope.

(** The platform calls as computations: each records itself in the trace
    and returns what the environment decides. *)
Module Calls.
Local Open Scope drv_scope.

Section WithCard.
Context {C : Type}.

Definition pci_enable_device (e : env) : M C Z :=
  emit (pci_enable_device_ev (enable_ret e)) >> ret (enable_ret e).

Definition pci_disable_device : M C unit := emit pci_disable_device_ev.

(** [kzalloc]: on success the card record is the zeroed one. *)
Definition kzalloc (e : env) (zero : C) : M C bool :=
  emit (kzalloc_ev (kzalloc_ok e)) >>
  if kzalloc_ok e then set_card zero >> ret true else ret false.

Definition kfree : M C unit := emit kfree_ev.

Definition pci_set_drvdata : M C unit := emit pci_set_drvdata_ev.

Definition pci_request_region (e : env) (bar : nat) : M C Z :=
  emit (pci_request_region_ev bar (request_region_ret e bar)) >>
  ret (request_region_ret e bar).

Definition pci_release_region (bar : nat) : M C unit :=
  emit (pci_release_region_ev bar).

Definition pci_iomap (e : env) (bar : nat) : M C Z :=
  emit (pci_iomap_ev bar (iomap_ret e bar)) >> ret (iomap_ret e bar).

Definition pci_iounmap (addr : Z) : M C unit := emit (pci_iounmap_ev addr).

Definition pci_disable_msi : M C unit := emit pci_disable_msi_ev.

Definition alloc_sja1000dev (e : env) (i : nat) : M C (option handle) :=
  if alloc_ok e i then
    let* h := fresh_dev in
    emit (alloc_sja1000dev_ev (Some h)) >> ret (Some h)
  else emit (alloc_sja1000dev_ev None) >> ret None.

Definition register_sja1000dev (e : env) (dev : handle)
    (priv : sja1000_priv) : M C Z :=
  emit (register_sja1000dev_ev dev priv (register_ret e (dev_id priv))) >>
  ret (register_ret e (dev_id priv)).

Definition unregister_sja1000dev (dev : handle) : M C unit :=
  emit (unregister_sja1000dev_ev dev).

Definition free_sja1000dev (dev : handle) : M C unit :=
  emit (free_sja1000dev_ev dev).

End WithCard.
End Calls.

Import Calls.

(** ** advantech_can_pci.c *)

Module Single.
Local Open Scope drv_scope.

(** [struct adv_pci_card]. [can_addr = 0] is NULL; [net_dev] has four
    slots. *)
Record adv_pci_card := {
  can_addr : Z;
  net_dev : list (option handle)
}.

(** What [kzalloc] returns. *)
Definition card_zero : adv_pci_card :=
  {| can_addr := 0; net_dev := replicate 4 None |}.

Definition ADV_PCI_CAN_CLOCK : Z := 16000000 / 2.
Definition ADV_PCI_OCR : list ocr_flag := [OCR_TX0_PUSHPULL; OCR_TX1_PUSHPULL].
Definition ADV_PCI_CDR : list cdr_flag := [CDR_CBP; CDR_CLKOUT_MASK].

(** Device identities of [adv_pci_tbl] (vendor ADVANTECH). *)
Definition adv_pci_tbl : list Z :=
  [0xc201; 0xc202; 0xc204; 0xc301; 0xc302; 0xc304].

Definition adv_read_reg (priv : sja1000_priv) (port : Z) : IO byte :=
  readb (reg_base priv + int_wrap (4 * port)).

Definition adv_write_reg (priv : sja1000_priv) (port : Z) (val : byte)
    : IO unit :=
  writeb val (reg_base priv + int_wrap (4 * port)).

(** Body of the first loop of [adv_remove] for slot [i]. *)
Definition remove_port (c : adv_pci_card) (i : nat) : M adv_pci_card unit :=
  match net_dev c !! i with
  | Some (Some dev) => unregister_sja1000dev dev >> free_sja1000dev dev
  | _ => ret tt
  end.

Definition adv_remove : M adv_pci_card unit :=
  let* c := get_card in
  for_each (seq 0 4) (remove_port c) >>
  pci_disable_msi >>
  pci_iounmap (can_addr c) >>
  pci_disable_device >>
  pci_release_region 0 >>
  kfree.

(** The fields the probe loop assigns for port [i] ([priv->priv] and
    [SET_NETDEV_DEV] apart). Addresses are unbounded integers; the
    product [0x400 * i] is computed in [int]. *)
Definition port_priv (pdev : pci_dev) (c : adv_pci_card) (i : nat)
    : sja1000_priv :=
  {| reg_base := can_addr c + int_wrap (0x400 * Z.of_nat i);
     regs := acc_mem;
     irq_flags := [IRQF_SHARED];
     clock_freq := ADV_PCI_CAN_CLOCK;
     ocr := ADV_PCI_OCR;
     cdr := ADV_PCI_CDR;
     dev_irq := irq pdev;
     dev_id := i |}.

(** [card->net_dev[i] = dev]. The four-slot array is only indexed below
    [device & 0xf], which is at most 4 for every entry of
    [adv_pci_tbl]. *)
Definition set_net_dev (i : nat) (dev : handle) : M adv_pci_card unit :=
  let* c := get_card in
  set_card {| can_addr := can_addr c;
              net_dev := <[i := Some dev]> (net_dev c) |}.

Definition set_can_addr (a : Z) : M adv_pci_card unit :=
  let* c := get_card in
  set_card {| can_addr := a; net_dev := net_dev c |}.

(** The port loop of [adv_probe], [n] iterations from index [i] on.
    [Some err] is a jump to [failure_cleanup] with that [err]. *)
Fixpoint probe_ports (e : env) (pdev : pci_dev) (n i : nat)
    : M adv_pci_card (option Z) :=
  match n with
  | O => ret None
  | S n' =>
    let* dev := alloc_sja1000dev e i in
    match dev with
    | None => ret (Some (- ENOMEM))
    | Some dev =>
      set_net_dev i dev >>
      let* c := get_card in
      let* err := register_sja1000dev e dev (port_priv pdev c i) in
      if err =? 0 then probe_ports e pdev n' (S i)
      else free_sja1000dev dev >> ret (Some err)
    end
  end.

Definition failure_cleanup (err : Z) : M adv_pci_card Z :=
  adv_remove >> ret err.

(** [pdev->device & 0xf], the bound of the port loop. *)
Definition port_count (pdev : pci_dev) : nat :=
  Z.to_nat (Z.land (device pdev) 0xf).

(** [adv_probe]. The log calls ([dev_err], [netdev_info]) are left out,
    and so is the block under [#ifdef TEST_MSI], which is not compiled. *)
Definition adv_probe (e : env) (pdev : pci_dev) : M adv_pci_card Z :=
  let* r := pci_enable_device e in
  if r <? 0 then ret (- ENODEV)
  else
    let* ok := kzalloc e card_zero in
    if negb ok then pci_disable_device >> ret (- ENOMEM)
    else
      pci_set_drvdata >>
      let* err := pci_request_region e 0 in
      if negb (err =? 0) then failure_cleanup err
      else
        let* a := pci_iomap e 0 in
        set_can_addr a >>
        if a =? 0 then failure_cleanup (- ENOMEM)
        else
          let* r := probe_ports e pdev (port_count pdev) 0 in
          match r with
          | Some err => failure_cleanup err
          | None => ret 0
          end.

End Single.

(** ** drivers/net/can/sja1000/advantech_can_pci.c *)

Module Multi.
Local Open Scope drv_scope.

Inductive board_id :=
| pci_1680 | mic_3680 | uno_2052 | eamb_ph07
| c001 | c002 | c004 | c101 | c102 | c104
| c201 | c202 | c204 | c301 | c302 | c304.

(** [struct card_data]. *)
Record struct_card_data := {
  name : string;
  ports : Z;
  iolength : Z;
  port_space : Z
}.

(** The table [card_data[]]; fields an initialiser leaves out are 0. *)
Definition card_data (b : board_id) : struct_card_data :=
  match b with
  | pci_1680 => {| name := "PCI-1680"; ports := 2; iolength := 0; port_space := 1 |}
  | mic_3680 => {| name := "MIC-3680"; ports := 2; iolength := 0; port_space := 1 |}
  | uno_2052 => {| name := "UNO-2052(E)"; ports := 2; iolength := 0; port_space := 1 |}
  | eamb_ph07 => {| name := "EAMB-PH07"; ports := 1; iolength := 0; port_space := 1 |}
  | c001 => {| name := "C001 CAN card (1 PORT)"; ports := 1; iolength := 0x100; port_space := 0 |}
  | c002 => {| name := "C002 CAN card (2 PORT)"; ports := 2; iolength := 0x100; port_space := 0 |}
  | c004 => {| name := "C004 CAN card (4 PORT)"; ports := 4; iolength := 0x100; port_space := 0 |}
  | c101 => {| name := "C101 CAN card (1 PORT,support CANopen)"; ports := 1; iolength := 0x100; port_space := 0 |}
  | c102 => {| name := "C102 CAN card (2 PORT,support CANopen)"; ports := 2; iolength := 0x100; port_space := 0 |}
  | c104 => {| name := "C104 CAN card (4 PORT,support CANopen)"; ports := 4; iolength := 0x100; port_space := 0 |}
  | c201 => {| name := "C201 CAN card (1 PORT)"; ports := 1; iolength := 0x400; port_space := 0 |}
  | c202 => {| name := "C202 CAN card (2 PORT)"; ports := 2; iolength := 0x400; port_space := 0 |}
  | c204 => {| name := "C204 CAN card (4 PORT)"; ports := 4; iolength := 0x400; port_space := 0 |}
  | c301 => {| name := "C301 CAN card (1 PORT,support CANopen)"; ports := 1; iolength := 0x400; port_space := 0 |}
  | c302 => {| name := "C302, MIOe-3680 (2 PORT,support CANopen)"; ports := 2; iolength := 0x400; port_space := 0 |}
  | c304 => {| name := "C304 CAN card (4 PORT,support CANopen)"; ports := 4; iolength := 0x400; port_space := 0 |}
  end.

(** [adv_pci_tbl]: device identity (vendor ADVANTECH) and [driver_data]. *)
Definition adv_pci_tbl : list (Z * board_id) :=
  [ (0x1680, pci_1680); (0x3680, mic_3680); (0x2052, uno_2052);
    (0x1681, eamb_ph07);
    (0xc001, c001); (0xc002, c002); (0xc004, c004);
    (0xc101, c101); (0xc102, c102); (0xc104, c104);
    (0xc201, c201); (0xc202, c202); (0xc204, c204);
    (0xc301, c301); (0xc302, c302); (0xc304, c304) ].

(** The port counts the comments of [adv_pci_tbl] give for the I/O port
    cards: "PCI io 2 ports BAR 2 and 3" for 0x1680, 0x3680 and 0x2052,
    "PCI io 1 port BAR 2" for 0x1681. *)
Definition io_ports_comment (dev : Z) : option Z :=
  if (dev =? 0x1680) || (dev =? 0x3680) || (dev =? 0x2052) then Some 2
  else if dev =? 0x1681 then Some 1
  else None.

(** [struct adv_pci_card]. [card_data] points into the table ([None] is
    NULL); [bar_addr] has two and [net_dev] four slots. *)
Record adv_pci_card := {
  card_data_ptr : option board_id;
  bar_addr : list Z;
  net_dev : list (option handle)
}.

Definition card_zero : adv_pci_card :=
  {| card_data_ptr := None; bar_addr := replicate 2 0;
     net_dev := replicate 4 None |}.

Definition ADV_PCI_CAN_CLOCK : Z := 16000000 / 2.
Definition ADV_PCI_OCR : list ocr_flag := [OCR_TX0_PUSHPULL; OCR_TX1_PUSHPULL].
Definition ADV_PCI_CDR : list cdr_flag := [CDR_CBP; CDR_CLKOUT_MASK].

Definition adv_read_reg_io (priv : sja1000_priv) (port : Z) : IO byte :=
  inb (reg_base priv + port).

Definition adv_write_reg_io (priv : sja1000_priv) (port : Z) (val : byte)
    : IO unit :=
  outb val (reg_base priv + port).

Definition adv_read_reg (priv : sja1000_priv) (port : Z) : IO byte :=
  readb (reg_base priv + int_wrap (4 * port)).

Definition adv_write_reg (priv : sja1000_priv) (port : Z) (val : byte)
    : IO unit :=
  writeb val (reg_base priv + int_wrap (4 * port)).

(** [card->card_data->ports]; the drivers read it only after the pointer
    has been assigned. *)
Definition card_ports (c : adv_pci_card) : Z :=
  match card_data_ptr c with
  | Some b => ports (card_data b)
  | None => 0
  end.

(** The loop of [adv_alloc_io], [n] iterations from index [i] on; [err]
    is the value of the variable when the loop is entered. *)
Fixpoint alloc_io_loop (e : env) (n i : nat) (err : Z) : M adv_pci_card Z :=
  match n with
  | O => ret err
  | S n' =>
    let* err := pci_request_region e (2 + i) in
    if negb (err =? 0) then ret err
    else alloc_io_loop e n' (S i) err
  end.

(** [adv_alloc_io] (the file defines it twice, with the same body). *)
Definition adv_alloc_io (e : env) : M adv_pci_card Z :=
  let* c := get_card in
  alloc_io_loop e (Z.to_nat (card_ports c)) 0 0.

Definition remove_port (c : adv_pci_card) (i : nat) : M adv_pci_card unit :=
  match net_dev c !! i with
  | Some (Some dev) => unregister_sja1000dev dev >> free_sja1000dev dev
  | _ => ret tt
  end.

Definition unmap_bar (c : adv_pci_card) (i : nat) : M adv_pci_card unit :=
  match bar_addr c !! i with
  | Some a => if a =? 0 then ret tt else pci_iounmap a
  | None => ret tt
  end.

Definition adv_remove : M adv_pci_card unit :=
  let* c := get_card in
  for_each (seq 0 4) (remove_port c) >>
  pci_disable_msi >>
  for_each (seq 0 2) (unmap_bar c) >>
  pci_disable_device >>
  pci_release_region 0 >>
  kfree.

(** The fields the probe loop assigns for port [i]. A slot of
    [bar_addr] that does not exist reads as 0 here; the I/O port cards of
    the table have at most two ports. *)
Definition port_priv (pdev : pci_dev) (cd : struct_card_data)
    (c : adv_pci_card) (i : nat) : sja1000_priv :=
  {| reg_base :=
       if negb (port_space cd =? 0) then default 0 (bar_addr c !! i)
       else default 0 (bar_addr c !! 0%nat)
            + uint_wrap (iolength cd * Z.of_nat i);
     regs := if negb (port_space cd =? 0) then acc_io else acc_mem;
     irq_flags := [IRQF_SHARED];
     clock_freq := ADV_PCI_CAN_CLOCK;
     ocr := ADV_PCI_OCR;
     cdr := ADV_PCI_CDR;
     dev_irq := irq pdev;
     dev_id := i |}.

Section WithMask.
(** The macro [PORTS_MASK] is used by [adv_probe] and defined nowhere
    in the repository. *)
Variable PORTS_MASK : Z.

(** The controlling expression [i < card_data->ports & PORTS_MASK]:
    [<] binds tighter than [&]. *)
Definition loop_cond (cd : struct_card_data) (i : nat) : Z :=
  Z.land (Z.b2z (Z.of_nat i <? ports cd)) PORTS_MASK.

End WithMask.

(** How a call of [adv_probe] ends: with [return err], or at a statement
    whose behaviour the source does not define. *)
Inductive outcome :=
| returned (err : Z)
| undefined.

(** [adv_probe]. The function declares a local
    [struct card_data *card_data], and inside the function this local
    hides the table [card_data[]]. The statement after
    [pci_set_drvdata],
    [card_data = card->card_data = &card_data[ent->driver_data]],
    therefore indexes the local itself, which has no value yet, and every
    later use of [port_space], [ports] and [iolength] goes through the
    pointer this yields, first in the [if] that follows. The table is
    never consulted. From that statement on the source does not define
    what happens (in a run: a read through a stray pointer), so the
    function ends there with [undefined]; no run that C defines reaches
    the reservation of BAR 0, the port loop or [failure_cleanup]. [ent]
    is read in that statement only. What the loop computes for the card
    data it is given is embedded on its own, in [loop_cond] and
    [port_priv]. Log calls are left out. *)
Definition adv_probe (e : env) (pdev : pci_dev) : M adv_pci_card outcome :=
  let* r := pci_enable_device e in
  if r <? 0 then ret (returned (- ENODEV))
  else
    let* ok := kzalloc e card_zero in
    if negb ok then pci_disable_device >> ret (returned (- ENOMEM))
    else pci_set_drvdata >> ret undefined.

End Multi.

(** ** What a trace leaves acquired, and which calls misuse a resource *)

Module Resources.

(** What the driver holds at some point of a trace. *)
Record resources := {
  enabled : bool;            (* the PCI device is enabled *)
  card_live : bool;          (* the card record is allocated *)
  regions : list nat;        (* BARs reserved *)
  maps : list Z;             (* addresses mapped with pci_iomap *)
  devs : list handle;        (* devices allocated and not freed *)
  registered : list handle   (* devices registered and not unregistered *)
}.

Definition nothing : resources :=
  {| enabled := false; card_live := false; regions := []; maps := [];
     devs := []; registered := [] |}.

Definition mem_nat (x : nat) (l : list nat) : bool := existsb (Nat.eqb x) l.
Definition mem_Z (x : Z) (l : list Z) : bool := existsb (Z.eqb x) l.
Definition del_nat (x : nat) (l : list nat) : list nat :=
  List.filter (fun y => negb (Nat.eqb x y)) l.
Definition del_Z (x : Z) (l : list Z) : list Z :=
  List.filter (fun y => negb (Z.eqb x y)) l.

(** Effect of one call on what is held. A release, unmap, unregister or
    free of something not held changes nothing. *)
Definition apply (r : resources) (ev : event) : resources :=
  match ev with
  | pci_enable_device_ev ret =>
      {| enabled := if ret <? 0 then enabled r else true;
         card_live := card_live r; regions := regions r; maps := maps r;
         devs := devs r; registered := registered r |}
  | pci_disable_device_ev =>
      {| enabled := false;
         card_live := card_live r; regions := regions r; maps := maps r;
         devs := devs r; registered := registered r |}
  | kzalloc_ev ok =>
      {| enabled := enabled r; card_live := ok || card_live r;
         regions := regions r; maps := maps r;
         devs := devs r; registered := registered r |}
  | kfree_ev =>
      {| enabled := enabled r; card_live := false;
         regions := regions r; maps := maps r;
         devs := devs r; registered := registered r |}
  | pci_request_region_ev bar ret =>
      {| enabled := enabled r; card_live := card_live r;
         regions := if ret =? 0 then bar :: regions r else regions r;
         maps := maps r; devs := devs r; registered := registered r |}
  | pci_release_region_ev bar =>
      {| enabled := enabled r; card_live := card_live r;
         regions := del_nat bar (regions r);
         maps := maps r; devs := devs r; registered := registered r |}
  | pci_iomap_ev _ addr =>
      {| enabled := enabled r; card_live := card_live r; regions := regions r;
         maps := if addr =? 0 then maps r else addr :: maps r;
         devs := devs r; registered := registered r |}
  | pci_iounmap_ev addr =>
      {| enabled := enabled r; card_live := card_live r; regions := regions r;
         maps := del_Z addr (maps r);
         devs := devs r; registered := registered r |}
  | alloc_sja1000dev_ev (Some dev) =>
      {| enabled := enabled r; card_live := card_live r; regions := regions r;
         maps := maps r; devs := dev :: devs r; registered := registered r |}
  | register_sja1000dev_ev dev _ ret =>
      {| enabled := enabled r; card_live := card_live r; regions := regions r;
         maps := maps r; devs := devs r;
         registered := if ret =? 0 then dev :: registered r else registered r |}
  | unregister_sja1000dev_ev dev =>
      {| enabled := enabled r; card_live := card_live r; regions := regions r;
         maps := maps r; devs := devs r;
         registered := del_nat dev (registered r) |}
  | free_sja1000dev_ev dev =>
      {| enabled := enabled r; card_live := card_live r; regions := regions r;
         maps := maps r; devs := del_nat dev (devs r);
         registered := registered r |}
  | alloc_sja1000dev_ev None | pci_set_drvdata_ev | pci_disable_msi_ev => r
  end.

(** The call is made on something the driver holds: a device that is
    enabled, a record that is allocated, a region that is reserved, an
    address that is mapped, a handle that is allocated (to register or
    free it) or registered (to unregister it). *)
Definition legal (r : resources) (ev : event) : bool :=
  match ev with
  | pci_disable_device_ev => enabled r
  | kfree_ev => card_live r
  | pci_release_region_ev bar => mem_nat bar (regions r)
  | pci_iounmap_ev addr => mem_Z addr (maps r)
  | register_sja1000dev_ev dev _ _ =>
      mem_nat dev (devs r) && negb (mem_nat dev (registered r))
  | unregister_sja1000dev_ev dev => mem_nat dev (registered r)
  | free_sja1000dev_ev dev => mem_nat dev (devs r)
  | _ => true
  end.

(** What is held after the calls of [tr], starting from [r]. *)
Definition held_from (r : resources) (tr : list event) : resources :=
  fold_left apply tr r.

Definition held (tr : list event) : resources := held_from nothing tr.

(** The calls of [tr] that misuse a resource, in order. *)
Fixpoint misuses_from (r : resources) (tr : list event) : list event :=
  match tr with
  | [] => []
  | ev :: tr' =>
      (if legal r ev then [] else [ev]) ++ misuses_from (apply r ev) tr'
  end.

Definition misuses (tr : list event) : list event := misuses_from nothing tr.

(** The misuses that release memory or a mapping a second time. *)
Definition releases_memory (ev : event) : bool :=
  match ev with
  | kfree_ev | free_sja1000dev_ev _ | pci_iounmap_ev _ => true
  | _ => false
  end.

Definition double_frees (tr : list event) : list event :=
  List.filter releases_memory (misuses tr).

(** The [priv] of every [register_sja1000dev] call of a trace, and the
    ports whose registration succeeded. *)
Definition registrations (tr : list event) : list sja1000_priv :=
  flat_map (fun ev => match ev with
                      | register_sja1000dev_ev _ priv _ => [priv]
                      | _ => []
                      end) tr.

Definition registered_ports (tr : list event) : list nat :=
  flat_map (fun ev => match ev with
                      | register_sja1000dev_ev _ priv ret =>
                          if ret =? 0 then [dev_id priv] else []
                      | _ => []
                      end) tr.

(** The regions a trace asked for, in order. *)
Definition requested_regions (tr : list event) : list nat :=
  flat_map (fun ev => match ev with
                      | pci_request_region_ev bar _ => [bar]
                      | _ => []
                      end) tr.

End Resources.

Import Resources.

(** ** The teardown order *)

Module Order.

(** The steps of a detach, as the specification orders them: the port
    handles (0), the address spaces (1), the bus device (2), the card
    record (3). Calls that are none of these have no phase. *)
Definition spec_phase (ev : event) : option nat :=
  match ev with
  | unregister_sja1000dev_ev _ | free_sja1000dev_ev _ => Some 0%nat
  | pci_iounmap_ev _ | pci_release_region_ev _ => Some 1%nat
  | pci_disable_device_ev => Some 2%nat
  | kfree_ev => Some 3%nat
  | _ => None
  end.

Fixpoint nondecreasing (l : list nat) : bool :=
  match l with
  | a :: (b :: _) as rest => (a <=? b)%nat && nondecreasing rest
  | _ => true
  end.

(** The port calls come in pairs: unregister, then free, of one handle. *)
Fixpoint unregister_then_free (tr : list event) : bool :=
  match tr with
  | unregister_sja1000dev_ev d :: free_sja1000dev_ev d' :: rest =>
      Nat.eqb d d' && unregister_then_free rest
  | unregister_sja1000dev_ev _ :: _ => false
  | free_sja1000dev_ev _ :: _ => false
  | _ :: rest => unregister_then_free rest
  | [] => true
  end.

(** No unmap after a release. *)
Fixpoint unmap_before_release (tr : list event) : bool :=
  match tr with
  | pci_release_region_ev _ :: rest =>
      forallb (fun ev => match ev with pci_iounmap_ev _ => false | _ => true end) rest
      && unmap_before_release rest
  | _ :: rest => unmap_before_release rest
  | [] => true
  end.

(** The order the specification gives for the calls of a detach. *)
Definition spec_detach_order (tr : list event) : bool :=
  nondecreasing (flat_map (fun ev => match spec_phase ev with
                                     | Some p => [p]
                                     | None => []
                                     end) tr)
  && unregister_then_free tr
  && unmap_before_release tr.

(** The calls [Single.adv_remove] makes for a card record [c], in order. *)
Definition port_calls (slot : option (option handle)) : list event :=
  match slot with
  | Some (Some dev) => [unregister_sja1000dev_ev dev; free_sja1000dev_ev dev]
  | _ => []
  end.

Definition remove_calls (c : Single.adv_pci_card) : list event :=
  flat_map (fun i => port_calls (Single.net_dev c !! i)) (seq 0 4)
  ++ [pci_disable_msi_ev; pci_iounmap_ev (Single.can_addr c);
      pci_disable_device_ev; pci_release_region_ev 0; kfree_ev].

End Order.

Import Order.

(** ** Runs: environments, and what a successful attach leaves *)

Module Runs.

(** Every call succeeds; [pci_iomap] returns [a]. *)
Definition env_all_ok (a : Z) : env :=
  {| enable_ret := 0; kzalloc_ok := true;
     request_region_ret := fun _ => 0; iomap_ret := fun _ => a;
     alloc_ok := fun _ => true; register_ret := fun _ => 0 |}.

(** [e], except that [alloc_sja1000dev] returns NULL for port [i]. *)
Definition alloc_fails (i : nat) (e : env) : env :=
  {| enable_ret := enable_ret e; kzalloc_ok := kzalloc_ok e;
     request_region_ret := request_region_ret e; iomap_ret := iomap_ret e;
     alloc_ok := fun j => if Nat.eqb j i then false else alloc_ok e j;
     register_ret := register_ret e |}.

(** [e], except that [register_sja1000dev] returns [err] for port [i]. *)
Definition register_fails (i : nat) (err : Z) (e : env) : env :=
  {| enable_ret := enable_ret e; kzalloc_ok := kzalloc_ok e;
     request_region_ret := request_region_ret e; iomap_ret := iomap_ret e;
     alloc_ok := alloc_ok e;
     register_ret := fun j => if Nat.eqb j i then err else register_ret e j |}.

(** [e], except that [pci_request_region] returns [err] for BAR [bar]. *)
Definition request_fails (bar : nat) (err : Z) (e : env) : env :=
  {| enable_ret := enable_ret e; kzalloc_ok := kzalloc_ok e;
     request_region_ret := fun b => if Nat.eqb b bar then err
                                    else request_region_ret e b;
     iomap_ret := iomap_ret e; alloc_ok := alloc_ok e;
     register_ret := register_ret e |}.

(** Allocation and registration succeed for ports [i .. i+n-1]. *)
Definition ports_ok (e : env) (i n : nat) : bool :=
  forallb (fun j => alloc_ok e j && (register_ret e j =? 0)) (seq i n).

(** The port slots after [n] iterations of a probe loop that started at
    index [i] with next handle [k]. *)
Fixpoint fill_slots (l : list (option handle)) (i k n : nat)
    : list (option handle) :=
  match n with
  | O => l
  | S n' => fill_slots (<[i := Some k]> l) (S i) (S k) n'
  end.

(** The calls of [n] successful iterations of the loop of
    [Single.adv_probe]; [a] is [card->can_addr]. *)
Fixpoint port_ok_calls (pdev : pci_dev) (a : Z) (i k n : nat) : list event :=
  match n with
  | O => []
  | S n' =>
      alloc_sja1000dev_ev (Some k)
      :: register_sja1000dev_ev k
           (Single.port_priv pdev
              {| Single.can_addr := a; Single.net_dev := [] |} i) 0
      :: port_ok_calls pdev a (S i) (S k) n'
  end.

(** Trace and card record of a [Single.adv_probe] that returns 0. *)
Definition probe_ok_calls (e : env) (pdev : pci_dev) : list event :=
  [pci_enable_device_ev (enable_ret e); kzalloc_ev true; pci_set_drvdata_ev;
   pci_request_region_ev 0 0; pci_iomap_ev 0 (iomap_ret e 0)]
  ++ port_ok_calls pdev (iomap_ret e 0) 0 0 (Single.port_count pdev).

Definition probe_ok_card (e : env) (pdev : pci_dev) : Single.adv_pci_card :=
  {| Single.can_addr := iomap_ret e 0;
     Single.net_dev :=
       fill_slots (replicate 4 None) 0 0 (Single.port_count pdev) |}.

(** The calls of the iteration of the loop of [Single.adv_probe] that
    fails for port [j], with next handle [k], and the error it leaves
    with. *)
Definition port_fail_calls (e : env) (pdev : pci_dev) (a : Z) (j k : nat)
    : list event :=
  if alloc_ok e j then
    [alloc_sja1000dev_ev (Some k);
     register_sja1000dev_ev k
       (Single.port_priv pdev {| Single.can_addr := a; Single.net_dev := [] |} j)
       (register_ret e j);
     free_sja1000dev_ev k]
  else [alloc_sja1000dev_ev None].

Definition port_fail_code (e : env) (j : nat) : Z :=
  if alloc_ok e j then register_ret e j else - ENOMEM.

Definition unmap_calls (slot : option Z) : list event :=
  match slot with
  | Some a => if a =? 0 then [] else [pci_iounmap_ev a]
  | None => []
  end.

(** The calls [Multi.adv_remove] makes for a card record [c], in order. *)
Definition multi_remove_calls (c : Multi.adv_pci_card) : list event :=
  flat_map (fun i => port_calls (Multi.net_dev c !! i)) (seq 0 4)
  ++ [pci_disable_msi_ev]
  ++ flat_map (fun i => unmap_calls (Multi.bar_addr c !! i)) (seq 0 2)
  ++ [pci_disable_device_ev; pci_release_region_ev 0; kfree_ev].

(** The register base of port [dev_id p] is [a] plus [stride] per port,
    and the port index lies in [lo, hi). *)
Definition base_ok (a stride : Z) (lo hi : nat) (p : sja1000_priv) : Prop :=
  reg_base p = a + stride * Z.of_nat (dev_id p) /\ (lo <= dev_id p < hi)%nat.

End Runs.

Import Runs.

(** ** Device matching *)

Module Match.

(** The [driver_data] the PCI core finds for a device: that of the first
    entry of [Multi.adv_pci_tbl] with that device identity. *)
Definition board_of (dev : Z) : option Multi.board_id :=
  match List.find (fun p => fst p =? dev) Multi.adv_pci_tbl with
  | Some p => Some (snd p)
  | None => None
  end.

(** The values of [enum board_id], in the order of the declaration. *)
Definition all_boards : list Multi.board_id :=
  [Multi.pci_1680; Multi.mic_3680; Multi.uno_2052; Multi.eamb_ph07;
   Multi.c001; Multi.c002; Multi.c004; Multi.c101; Multi.c102; Multi.c104;
   Multi.c201; Multi.c202; Multi.c204; Multi.c301; Multi.c302; Multi.c304].

(** The reservations of ports [i .. i+n-1] succeed. *)
Definition regions_ok (e : env) (i n : nat) : bool :=
  forallb (fun j => request_region_ret e (2 + j) =? 0) (seq i n).

End Match.

Import Match.

(** * Proofs *)

Create HintDb drv.
#[local] Hint Unfold bind ret emit get_card set_card fresh_dev
  pci_enable_device pci_disable_device kzalloc kfree pci_set_drvdata
  pci_request_region pci_release_region pci_iomap pci_iounmap pci_disable_msi
  alloc_sja1000dev register_sja1000dev unregister_sja1000dev free_sja1000dev
  Single.set_net_dev Single.set_can_addr Single.failure_cleanup : drv.

(** Unfold the monad and the calls, and run what is determined. *)
Ltac mrun :=
  autounfold with drv; cbn [card next_dev trace fst snd for_each seq].

(** ** Arithmetic *)

Lemma int_wrap_small z : - 2 ^ 31 <= z < 2 ^ 31 -> int_wrap z = z.
Proof.
  intros H. unfold int_wrap.
  rewrite Z.mod_small by lia. lia.
Qed.

Lemma uint_wrap_small z : 0 <= z < 2 ^ 32 -> uint_wrap z = z.
Proof. intros H. unfold uint_wrap. apply Z.mod_small. lia. Qed.

Lemma land_15_le z : 0 <= Z.land z 15 <= 15.
Proof.
  split; [apply Z.land_nonneg; lia|].
  destruct (Z.land z 15) eqn:E; try lia.
  assert (Hb : forall n, 4 <= n -> Z.testbit (Z.pos p) n = false).
  { intros n Hn. rewrite <- E, Z.land_spec.
    replace (Z.testbit 15 n) with false; [apply andb_false_r|].
    symmetry. apply (Z.bits_above_log2 15 n); [lia|]. cbn. lia. }
  destruct (Z_lt_le_dec (Z.pos p) 16) as [|Hge]; [lia|].
  pose proof (Z.log2_le_mono 16 (Z.pos p) Hge) as Hl.
  change (Z.log2 16) with 4 in Hl.
  pose proof (Z.bit_log2 (Z.pos p) ltac:(lia)) as Hbit.
  rewrite Hb in Hbit by exact Hl. discriminate.
Qed.

Lemma port_count_le pdev : (Single.port_count pdev <= 15)%nat.
Proof.
  unfold Single.port_count. pose proof (land_15_le (device pdev)). lia.
Qed.

Lemma tbl_cases (pdev : pci_dev) :
  In (device pdev) Single.adv_pci_tbl ->
  Single.port_count pdev = 1%nat \/ Single.port_count pdev = 2%nat \/
  Single.port_count pdev = 4%nat.
Proof.
  unfold Single.adv_pci_tbl, Single.port_count. cbn [In].
  intros H. repeat destruct H as [<- | H]; try contradiction; cbn; auto.
Qed.

(** ** Traces of the teardown functions *)

(** A loop whose body only makes calls leaves the card record and the
    handle counter, and makes the calls of its iterations in order. *)
Lemma for_each_calls {C} (body : nat -> M C unit) (calls : nat -> list event) idx :
  (forall i w, body i w = (tt, World (card w) (next_dev w) (trace w ++ calls i))) ->
  forall w, for_each idx body w =
            (tt, World (card w) (next_dev w) (trace w ++ flat_map calls idx)).
Proof.
  intros Hbody. induction idx as [|i idx IH]; intros [c k tr].
  - cbn. unfold ret. rewrite app_nil_r. reflexivity.
  - cbn [for_each flat_map]. unfold bind. rewrite Hbody, IH. cbn.
    rewrite <- app_assoc. reflexivity.
Qed.

Lemma remove_port_calls c i w :
  Single.remove_port c i w =
    (tt, World (card w) (next_dev w) (trace w ++ port_calls (Single.net_dev c !! i))).
Proof.
  unfold Single.remove_port. destruct w as [c' k tr].
  destruct (Single.net_dev c !! i) as [[d|]|]; mrun; cbn [port_calls];
    rewrite <- ?app_assoc, ?app_nil_r; reflexivity.
Qed.

Lemma remove_trace (w : world Single.adv_pci_card) :
  Single.adv_remove w =
    (tt, World (card w) (next_dev w) (trace w ++ remove_calls (card w))).
Proof.
  unfold Single.adv_remove, remove_calls. destruct w as [c k tr].
  unfold bind at 1. unfold get_card. unfold bind at 1.
  rewrite (for_each_calls _ _ _ (remove_port_calls c)). mrun.
  rewrite <- !app_assoc. reflexivity.
Qed.

Lemma multi_remove_port_calls c i w :
  Multi.remove_port c i w =
    (tt, World (card w) (next_dev w) (trace w ++ port_calls (Multi.net_dev c !! i))).
Proof.
  unfold Multi.remove_port. destruct w as [c' k tr].
  destruct (Multi.net_dev c !! i) as [[d|]|]; mrun; cbn [port_calls];
    rewrite <- ?app_assoc, ?app_nil_r; reflexivity.
Qed.

Lemma multi_unmap_bar_calls c i w :
  Multi.unmap_bar c i w =
    (tt, World (card w) (next_dev w) (trace w ++ unmap_calls (Multi.bar_addr c !! i))).
Proof.
  unfold Multi.unmap_bar. destruct w as [c' k tr].
  destruct (Multi.bar_addr c !! i) as [a|]; cbn [unmap_calls];
    [destruct (a =? 0)|]; mrun; rewrite ?app_nil_r; reflexivity.
Qed.

Lemma multi_remove_trace (w : world Multi.adv_pci_card) :
  Multi.adv_remove w =
    (tt, World (card w) (next_dev w) (trace w ++ multi_remove_calls (card w))).
Proof.
  unfold Multi.adv_remove, multi_remove_calls. destruct w as [c k tr].
  unfold bind at 1. unfold get_card. unfold bind at 1.
  rewrite (for_each_calls _ _ _ (multi_remove_port_calls c)).
  unfold bind at 1. unfold pci_disable_msi, emit at 1.
  cbn [card next_dev trace]. unfold bind at 1.
  rewrite (for_each_calls _ _ _ (multi_unmap_bar_calls c)). mrun.
  rewrite <- !app_assoc. reflexivity.
Qed.

Lemma registrations_app l1 l2 :
  registrations (l1 ++ l2) = registrations l1 ++ registrations l2.
Proof. unfold registrations. apply flat_map_app. Qed.

Lemma registrations_port_calls s : registrations (port_calls s) = [].
Proof. destruct s as [[d|]|]; reflexivity. Qed.

Lemma registrations_remove_calls c : registrations (remove_calls c) = [].
Proof.
  unfold remove_calls. rewrite registrations_app. cbn [seq flat_map].
  rewrite !registrations_app, !registrations_port_calls. reflexivity.
Qed.

(** ** The port loop of [Single.adv_probe] *)

Lemma probe_ports_ok e pdev n : forall i w,
  ports_ok e i n = true ->
  Single.probe_ports e pdev n i w =
    (None,
     World {| Single.can_addr := Single.can_addr (card w);
              Single.net_dev :=
                fill_slots (Single.net_dev (card w)) i (next_dev w) n |}
           (next_dev w + n)%nat
           (trace w ++ port_ok_calls pdev (Single.can_addr (card w)) i
                         (next_dev w) n)).
Proof.
  induction n as [|n IH]; intros i [c k tr] Hok.
  - cbn. unfold ret. rewrite Nat.add_0_r, app_nil_r. destruct c; reflexivity.
  - unfold ports_ok in Hok. cbn [seq forallb] in Hok.
    apply andb_true_iff in Hok as [Hi Hrest].
    apply andb_true_iff in Hi as [Ha Hr].
    cbn [Single.probe_ports]. mrun. rewrite Ha. mrun.
    cbn [dev_id Single.port_priv]. rewrite Hr.
    rewrite IH by exact Hrest.
    cbn [card next_dev trace Single.can_addr Single.net_dev fill_slots
         port_ok_calls].
    apply Z.eqb_eq in Hr. rewrite Hr.
    rewrite <- !app_assoc. cbn [app].
    rewrite Nat.add_succ_r. reflexivity.
Qed.

Lemma probe_ports_failed e pdev n : forall i w,
  ports_ok e i n = false ->
  exists err w', Single.probe_ports e pdev n i w = (Some err, w') /\ err <> 0.
Proof.
  induction n as [|n IH]; intros i [c k tr] Hok.
  - discriminate.
  - unfold ports_ok in Hok. cbn [seq forallb] in Hok.
    cbn [Single.probe_ports]. mrun.
    destruct (alloc_ok e i) eqn:Ha; mrun.
    + cbn [dev_id Single.port_priv].
      destruct (register_ret e i =? 0) eqn:Hr.
      * cbn [andb] in Hok. apply IH. exact Hok.
      * apply Z.eqb_neq in Hr. eauto.
    + eexists _, _. split; [reflexivity|]. unfold ENOMEM. lia.
Qed.

(** Loop invariant: whatever the outcome, the loop leaves [can_addr] and
    registers port [j] with base [can_addr + 0x400 * j]. *)
Lemma probe_ports_regs e pdev n : forall i w r w',
  (i + n <= 15)%nat ->
  Single.probe_ports e pdev n i w = (r, w') ->
  exists evs,
    trace w' = trace w ++ evs /\
    Single.can_addr (card w') = Single.can_addr (card w) /\
    Forall (base_ok (Single.can_addr (card w)) 0x400 i (i + n))
           (registrations evs).
Proof.
  induction n as [|n IH]; intros i [c k tr] r w' Hle.
  - intros [= <- <-]. exists []. cbn. rewrite app_nil_r.
    repeat split. constructor.
  - assert (Hbase : base_ok (Single.can_addr c) 0x400 i (i + S n)
                      (Single.port_priv pdev
                         {| Single.can_addr := Single.can_addr c;
                            Single.net_dev := <[i:=Some k]> (Single.net_dev c) |} i)).
    { unfold base_ok. cbn [reg_base dev_id Single.port_priv Single.can_addr].
      rewrite int_wrap_small by lia. split; [reflexivity | lia]. }
    cbn [Single.probe_ports]. mrun.
    destruct (alloc_ok e i); mrun.
    + cbn [dev_id Single.port_priv].
      destruct (register_ret e i =? 0).
      * intros Hrun. apply IH in Hrun as (evs & -> & -> & Hf); [|lia].
        cbn [card trace Single.can_addr] in *.
        eexists. rewrite <- !app_assoc. split; [reflexivity|].
        split; [reflexivity|]. cbn [app registrations flat_map].
        constructor; [exact Hbase|].
        eapply Forall_impl; [exact Hf|]. unfold base_ok.
        intros p [? ?]. split; [assumption|lia].
      * intros [= <- <-]. eexists. cbn [trace card Single.can_addr].
        rewrite <- !app_assoc. split; [reflexivity|]. split; [reflexivity|].
        cbn [app registrations flat_map].
        constructor; [exact Hbase|constructor].
    + intros [= <- <-]. eexists. cbn [trace card]. split; [reflexivity|].
      split; [reflexivity|]. constructor.
Qed.

(** A [Single.adv_probe] that returns 0 made exactly the calls of
    [probe_ok_calls] and left the card record [probe_ok_card]. *)
Lemma probe_success e pdev c w1 :
  Single.adv_probe e pdev (boot c) = (0, w1) ->
  (enable_ret e <? 0) = false /\ (iomap_ret e 0 =? 0) = false /\
  ports_ok e 0 (Single.port_count pdev) = true /\
  w1 = World (probe_ok_card e pdev) (Single.port_count pdev)
             (probe_ok_calls e pdev).
Proof.
  unfold Single.adv_probe, boot. mrun.
  destruct (enable_ret e <? 0) eqn:Hen; [intros [=]|].
  destruct (kzalloc_ok e) eqn:Hk; cbn [negb]; [|intros [=]].
  mrun.
  destruct (request_region_ret e 0 =? 0) eqn:Hreq; cbn [negb].
  2:{ rewrite remove_trace. intros [= Hz _].
      apply Z.eqb_neq in Hreq. contradiction. }
  apply Z.eqb_eq in Hreq. rewrite Hreq.
  destruct (iomap_ret e 0 =? 0) eqn:Hmap.
  { rewrite remove_trace. intros [=]. }
  destruct (ports_ok e 0 (Single.port_count pdev)) eqn:Hok.
  - rewrite probe_ports_ok by exact Hok.
    intros [= <-]. repeat split.
  - match goal with
    | |- context [Single.probe_ports e pdev ?n ?i ?w] =>
        destruct (probe_ports_failed e pdev n i w Hok) as (err & w' & -> & Hne)
    end.
    rewrite remove_trace. intros [= Hz _]. contradiction.
Qed.

Lemma registered_port_ok_calls pdev a n : forall i k,
  registered_ports (port_ok_calls pdev a i k n) = seq i n.
Proof.
  induction n as [|n IH]; intros i k; [reflexivity|].
  cbn [port_ok_calls registered_ports flat_map seq]. cbn [app].
  fold (registered_ports (port_ok_calls pdev a (S i) (S k) n)).
  rewrite IH. reflexivity.
Qed.

(** * Properties of the specification (C1 to C10) *)

(** ** Register accessors (C3, C10) *)

(** C3. Memory-mapped layouts: for a port [p] and a register index [r]
    inside the port's stride, the accessors the probe installs work on the
    byte at [port_base + 4 * r], where [port_base] is the mapped base plus
    the stride times [p]: the read returns that byte, the write stores its
    value there, and a read after a write of [v] returns [v]. First
    conjunct: [advantech_can_pci.c] (stride 0x400); second: the memory
    mapped cards of the [card_data] table (stride [iolength]). *)
Theorem C3_read_after_write :
  (forall (pdev : pci_dev) (c : Single.adv_pci_card) (p : nat) (r : Z)
          (v : byte) (m : gmap Z byte),
     (p < 4)%nat -> 0 <= r < 256 ->
     let priv := Single.port_priv pdev c p in
     let port_base := Single.can_addr c + 0x400 * Z.of_nat p in
     reg_base priv = port_base /\
     Single.adv_read_reg priv r m = (default x00 (m !! (port_base + 4 * r)), m) /\
     Single.adv_write_reg priv r v m = (tt, <[port_base + 4 * r := v]> m) /\
     fst (Single.adv_read_reg priv r (snd (Single.adv_write_reg priv r v m))) = v)
  /\
  (forall (pdev : pci_dev) (b : Multi.board_id) (c : Multi.adv_pci_card)
          (p : nat) (r : Z) (v : byte) (m : gmap Z byte),
     Multi.port_space (Multi.card_data b) = 0 ->
     Z.of_nat p < Multi.ports (Multi.card_data b) ->
     0 <= 4 * r < Multi.iolength (Multi.card_data b) ->
     let priv := Multi.port_priv pdev (Multi.card_data b) c p in
     let port_base := default 0 (Multi.bar_addr c !! 0%nat)
                      + Multi.iolength (Multi.card_data b) * Z.of_nat p in
     reg_base priv = port_base /\
     regs priv = acc_mem /\
     Multi.adv_read_reg priv r m = (default x00 (m !! (port_base + 4 * r)), m) /\
     Multi.adv_write_reg priv r v m = (tt, <[port_base + 4 * r := v]> m) /\
     fst (Multi.adv_read_reg priv r (snd (Multi.adv_write_reg priv r v m))) = v).
Proof.
  split.
  - intros pdev c p r v m Hp Hr priv port_base.
    assert (Hb : reg_base priv = port_base).
    { unfold priv, port_base, Single.port_priv. cbn [reg_base].
      rewrite int_wrap_small by lia. reflexivity. }
    unfold Single.adv_read_reg, Single.adv_write_reg, readb, writeb.
    rewrite Hb, int_wrap_small by lia.
    repeat split. cbn [fst snd].
    rewrite lookup_insert_eq. reflexivity.
  - intros pdev b c p r v m Hps Hp Hr priv port_base.
    assert (Hio : 0 <= Multi.iolength (Multi.card_data b) <= 0x400
                  /\ Multi.ports (Multi.card_data b) <= 4)
      by (destruct b; cbn; lia).
    assert (Hb : reg_base priv = port_base /\ regs priv = acc_mem).
    { unfold priv, port_base, Multi.port_priv. cbn [reg_base regs].
      rewrite Hps. cbn [Z.eqb negb].
      rewrite uint_wrap_small by nia. split; reflexivity. }
    destruct Hb as [Hb Hacc].
    unfold Multi.adv_read_reg, Multi.adv_write_reg, readb, writeb.
    rewrite Hb, int_wrap_small by lia.
    repeat split; [exact Hacc|]. cbn [fst snd].
    rewrite lookup_insert_eq. reflexivity.
Qed.

Lemma C3_read_after_write_witness :
  fst (Single.adv_read_reg
         (Single.port_priv {| device := 0xc202; irq := 11 |}
            {| Single.can_addr := 0x1000; Single.net_dev := replicate 4 None |} 1)
         8
         (snd (Single.adv_write_reg
                 (Single.port_priv {| device := 0xc202; irq := 11 |}
                    {| Single.can_addr := 0x1000;
                       Single.net_dev := replicate 4 None |} 1)
                 8 xda ∅)))
  = xda.
Proof.
  apply (proj1 C3_read_after_write
           {| device := 0xc202; irq := 11 |}
           {| Single.can_addr := 0x1000; Single.net_dev := replicate 4 None |}
           1%nat 8 xda ∅); lia.
Defined.

(** C10. The write accessor changes the register file at
    [reg_base + 4 * r] only, every other address keeps its content, and
    the read accessor leaves the register file as it is. *)
Theorem C10_accessor_frame (priv : sja1000_priv) (r : Z) (v : byte)
    (m : gmap Z byte) :
  0 <= r < 256 ->
  snd (Single.adv_write_reg priv r v m) !! (reg_base priv + 4 * r) = Some v /\
  (forall a, a <> reg_base priv + 4 * r ->
             snd (Single.adv_write_reg priv r v m) !! a = m !! a) /\
  snd (Single.adv_read_reg priv r m) = m.
Proof.
  intros Hr.
  unfold Single.adv_write_reg, Single.adv_read_reg, writeb, readb.
  rewrite int_wrap_small by lia. cbn [snd].
  split; [apply lookup_insert_eq|].
  split; [|reflexivity].
  intros a Ha. apply lookup_insert_ne. congruence.
Qed.

Lemma C10_accessor_frame_witness :
  snd (Single.adv_write_reg
         (Single.port_priv {| device := 0xc201; irq := 11 |}
            {| Single.can_addr := 0x1000; Single.net_dev := replicate 4 None |} 0)
         31 xc7 ∅)
    !! (0x1000 + 4 * 30) = (∅ : gmap Z byte) !! (0x1000 + 4 * 30).
Proof.
  apply (proj1 (proj2 (C10_accessor_frame
           (Single.port_priv {| device := 0xc201; irq := 11 |}
              {| Single.can_addr := 0x1000;
                 Single.net_dev := replicate 4 None |} 0)
           31 xc7 ∅ ltac:(lia)))).
  vm_compute. discriminate.
Defined.

(** ** Port base addresses (C4) *)

(** Every device [Single.adv_probe] hands to [register_sja1000dev],
    whatever the outcome of the run, has [reg_base] at the mapped address
    plus 0x400 per port. *)
Lemma single_probe_regs e pdev c priv :
  In priv (registrations (trace (snd (Single.adv_probe e pdev (boot c))))) ->
  base_ok (iomap_ret e 0) 0x400 0 (Single.port_count pdev) priv.
Proof.
  assert (Hfin : forall evs,
    Forall (base_ok (iomap_ret e 0) 0x400 0 (0 + Single.port_count pdev))
           (registrations evs) ->
    In priv (registrations evs) ->
    base_ok (iomap_ret e 0) 0x400 0 (Single.port_count pdev) priv).
  { intros evs Hf Hin. rewrite Forall_forall in Hf.
    apply list_elem_of_In in Hin. exact (Hf _ Hin). }
  unfold Single.adv_probe, boot. mrun.
  destruct (enable_ret e <? 0); [cbn; contradiction|].
  destruct (kzalloc_ok e); cbn [negb]; mrun; [|cbn; contradiction].
  destruct (request_region_ret e 0 =? 0); cbn [negb]; mrun.
  2:{ rewrite remove_trace. cbn [snd trace].
      rewrite registrations_app, registrations_remove_calls. cbn.
      contradiction. }
  destruct (iomap_ret e 0 =? 0).
  { rewrite remove_trace. cbn [snd trace].
    rewrite registrations_app, registrations_remove_calls. cbn.
    contradiction. }
  match goal with
  | |- context [Single.probe_ports e pdev ?n ?i ?w] =>
      destruct (Single.probe_ports e pdev n i w) as [r w'] eqn:Hrun
  end.
  apply probe_ports_regs in Hrun as (evs & Htr & _ & Hf);
    [|pose proof (port_count_le pdev); lia].
  cbn [card trace Single.can_addr] in Htr, Hf.
  destruct r as [err|].
  - rewrite remove_trace. cbn [snd trace]. rewrite Htr.
    rewrite !registrations_app, registrations_remove_calls, app_nil_r.
    cbn [registrations flat_map app]. apply Hfin. exact Hf.
  - cbn [snd]. rewrite Htr. rewrite registrations_app.
    cbn [registrations flat_map app]. apply Hfin. exact Hf.
Qed.

(** C4. Memory-mapped layouts: the base address computed for port [p] is
    the mapped base of BAR 0 plus the stride times [p], and registers of
    two different ports, each inside its port's stride, never have the
    same address. First conjunct: every device [advantech_can_pci.c]
    registers, in any run, with stride 0x400. Second: the assignment to
    [priv->reg_base] in the loop of the second file ([Multi.port_priv]),
    for the table entry of every memory-mapped board and every port of
    it, with the stride [iolength] of the entry. Third and fourth: that
    stride is 0x400 for the c2xx/c3xx entries and 0x100 for the c0xx/c1xx
    entries. Fifth and sixth: no overlap, in either file. *)
Theorem C4_port_base :
  (forall e pdev c priv,
     In priv (registrations (trace (snd (Single.adv_probe e pdev (boot c))))) ->
     reg_base priv = iomap_ret e 0 + 0x400 * Z.of_nat (dev_id priv))
  /\
  (forall pdev b c (p : nat),
     Multi.port_space (Multi.card_data b) = 0 ->
     Z.of_nat p < Multi.ports (Multi.card_data b) ->
     reg_base (Multi.port_priv pdev (Multi.card_data b) c p)
     = default 0 (Multi.bar_addr c !! 0%nat)
       + Multi.iolength (Multi.card_data b) * Z.of_nat p)
  /\
  Forall (fun b => Multi.iolength (Multi.card_data b) = 0x400)
         [Multi.c201; Multi.c202; Multi.c204; Multi.c301; Multi.c302; Multi.c304]
  /\
  Forall (fun b => Multi.iolength (Multi.card_data b) = 0x100)
         [Multi.c001; Multi.c002; Multi.c004; Multi.c101; Multi.c102; Multi.c104]
  /\
  (forall pdev c (p1 p2 : nat) (r1 r2 : Z),
     p1 <> p2 -> (p1 < 4)%nat -> (p2 < 4)%nat ->
     0 <= 4 * r1 < 0x400 -> 0 <= 4 * r2 < 0x400 ->
     reg_base (Single.port_priv pdev c p1) + 4 * r1
     <> reg_base (Single.port_priv pdev c p2) + 4 * r2)
  /\
  (forall pdev b c (p1 p2 : nat) (r1 r2 : Z),
     Multi.port_space (Multi.card_data b) = 0 ->
     p1 <> p2 ->
     Z.of_nat p1 < Multi.ports (Multi.card_data b) ->
     Z.of_nat p2 < Multi.ports (Multi.card_data b) ->
     0 <= 4 * r1 < Multi.iolength (Multi.card_data b) ->
     0 <= 4 * r2 < Multi.iolength (Multi.card_data b) ->
     reg_base (Multi.port_priv pdev (Multi.card_data b) c p1) + 4 * r1
     <> reg_base (Multi.port_priv pdev (Multi.card_data b) c p2) + 4 * r2).
Proof.
  split; [|split; [|split; [|split; [|split]]]].
  - intros e pdev c priv Hin. apply single_probe_regs in Hin. apply Hin.
  - intros pdev b c p Hps Hp.
    assert (Hio : 0 <= Multi.iolength (Multi.card_data b) <= 0x400
                  /\ Multi.ports (Multi.card_data b) <= 4)
      by (destruct b; cbn; lia).
    unfold Multi.port_priv. cbn [reg_base]. rewrite Hps. cbn [Z.eqb negb].
    rewrite uint_wrap_small by nia. reflexivity.
  - repeat constructor.
  - repeat constructor.
  - intros pdev c p1 p2 r1 r2 Hne Hp1 Hp2 Hr1 Hr2.
    unfold Single.port_priv. cbn [reg_base].
    rewrite !int_wrap_small by lia. lia.
  - intros pdev b c p1 p2 r1 r2 Hps Hne Hp1 Hp2 Hr1 Hr2.
    assert (Hio : 0 <= Multi.iolength (Multi.card_data b) <= 0x400
                  /\ Multi.ports (Multi.card_data b) <= 4)
      by (destruct b; cbn; lia).
    unfold Multi.port_priv. cbn [reg_base]. rewrite Hps. cbn [Z.eqb negb].
    rewrite !uint_wrap_small by nia.
    assert (p1 < p2 \/ p2 < p1)%nat as [Hlt | Hlt] by lia; nia.
Qed.

Lemma C4_port_base_witness :
  reg_base
    (Single.port_priv {| device := 0xc202; irq := 11 |}
       {| Single.can_addr := 0x1000;
          Single.net_dev := [Some 0%nat; Some 1%nat; None; None] |} 1)
  = iomap_ret (env_all_ok 0x1000) 0 + 0x400 * 1.
Proof.
  apply (proj1 C4_port_base (env_all_ok 0x1000)
           {| device := 0xc202; irq := 11 |} Single.card_zero).
  vm_compute. right. left. reflexivity.
Defined.

(** ** Port counts (C5) *)

(** C5. The number of ports set up is 1, 2, 3 or 4, and it is the low
    nibble of the PCI device identity for the memory-mapped cards and the
    count the table's comments give for the I/O port cards. First
    conjunct: [advantech_can_pci.c], where a probe that returns 0 has
    registered exactly the ports [0 .. (device & 0xf) - 1]. Second: the
    [card_data] table of the second file against its [adv_pci_tbl]. *)
Theorem C5_port_count :
  (forall pdev,
     In (device pdev) Single.adv_pci_tbl ->
     (1 <= Single.port_count pdev <= 4)%nat /\
     Z.of_nat (Single.port_count pdev) = Z.land (device pdev) 0xf /\
     forall e c w,
       Single.adv_probe e pdev (boot c) = (0, w) ->
       registered_ports (trace w) = seq 0 (Single.port_count pdev))
  /\
  (forall dev b,
     In (dev, b) Multi.adv_pci_tbl ->
     1 <= Multi.ports (Multi.card_data b) <= 4 /\
     (Multi.port_space (Multi.card_data b) = 0 ->
      Multi.ports (Multi.card_data b) = Z.land dev 0xf) /\
     (Multi.port_space (Multi.card_data b) <> 0 ->
      Multi.io_ports_comment dev = Some (Multi.ports (Multi.card_data b)))).
Proof.
  split.
  - intros pdev Hin. split; [|split].
    + destruct (tbl_cases pdev Hin) as [-> | [-> | ->]]; lia.
    + unfold Single.port_count. pose proof (land_15_le (device pdev)). lia.
    + intros e c w Hp. apply probe_success in Hp as (_ & _ & _ & ->).
      cbn [trace]. unfold probe_ok_calls.
      change (registered_ports (?l1 ++ ?l2))
        with (flat_map (fun ev => match ev with
                                  | register_sja1000dev_ev _ priv ret =>
                                      if ret =? 0 then [dev_id priv] else []
                                  | _ => []
                                  end) (l1 ++ l2)).
      rewrite flat_map_app. cbn [flat_map app].
      apply registered_port_ok_calls.
  - intros dev b Hin. unfold Multi.adv_pci_tbl in Hin. cbn [In] in Hin.
    repeat destruct Hin as [[= <- <-] | Hin]; try contradiction;
      cbn; repeat split; try lia; try reflexivity; intros; congruence.
Qed.

Lemma C5_port_count_witness :
  registered_ports
    (trace (snd (Single.adv_probe (env_all_ok 0x1000)
                   {| device := 0xc304; irq := 11 |} (boot Single.card_zero))))
  = seq 0 4.
Proof.
  assert (Hin : In (device {| device := 0xc304; irq := 11 |}) Single.adv_pci_tbl).
  { cbn. do 5 right. left. reflexivity. }
  apply (proj2 (proj2 (proj1 C5_port_count {| device := 0xc304; irq := 11 |} Hin))
           (env_all_ok 0x1000) Single.card_zero
           (snd (Single.adv_probe (env_all_ok 0x1000)
                   {| device := 0xc304; irq := 11 |} (boot Single.card_zero)))).
  vm_compute. reflexivity.
Defined.

(** ** Attach followed by detach (C7) *)

Lemma single_attach_detach e pdev c w1 w2 :
  In (device pdev) Single.adv_pci_tbl ->
  Single.adv_probe e pdev (boot c) = (0, w1) ->
  Single.adv_remove w1 = (tt, w2) ->
  held (trace w2) = nothing /\ misuses (trace w2) = [].
Proof.
  intros Hin Hp Hr.
  apply probe_success in Hp as (Hen & Hmap & _ & ->).
  rewrite remove_trace in Hr. injection Hr as <-.
  cbn [card trace]. unfold probe_ok_calls, probe_ok_card, remove_calls.
  destruct (tbl_cases pdev Hin) as [-> | [-> | ->]];
    cbn; rewrite Hen, ?Hmap, ?Z.eqb_refl; cbn; rewrite ?Hmap, ?Z.eqb_refl;
    split; reflexivity.
Qed.

(** C7. In [advantech_can_pci.c], for every device of its table: after an
    attach that returned 0 and the detach that follows it the driver
    holds nothing (no region reserved, no mapping, no device handle
    allocated or registered, the card record freed and the bus device
    disabled), and no call of the two was made on something not held. *)
Theorem C7_attach_detach_holds_nothing e pdev c w1 w2 :
  In (device pdev) Single.adv_pci_tbl ->
  Single.adv_probe e pdev (boot c) = (0, w1) ->
  Single.adv_remove w1 = (tt, w2) ->
  held (trace w2) = nothing /\ misuses (trace w2) = [].
Proof.
  intros Hin Hp Hr. exact (single_attach_detach e pdev c w1 w2 Hin Hp Hr).
Qed.

Lemma C7_attach_detach_holds_nothing_witness :
  held (trace (snd (Single.adv_remove
                      (snd (Single.adv_probe (env_all_ok 0x1000)
                              {| device := 0xc302; irq := 11 |}
                              (boot Single.card_zero))))))
  = nothing
  /\
  misuses (trace (snd (Single.adv_remove
                         (snd (Single.adv_probe (env_all_ok 0x1000)
                                 {| device := 0xc302; irq := 11 |}
                                 (boot Single.card_zero))))))
  = [].
Proof.
  assert (Hin : In (device {| device := 0xc302; irq := 11 |}) Single.adv_pci_tbl).
  { cbn. do 4 right. left. reflexivity. }
  refine (C7_attach_detach_holds_nothing (env_all_ok 0x1000)
            {| device := 0xc302; irq := 11 |} Single.card_zero
            (snd (Single.adv_probe (env_all_ok 0x1000)
                    {| device := 0xc302; irq := 11 |} (boot Single.card_zero)))
            (snd (Single.adv_remove
                    (snd (Single.adv_probe (env_all_ok 0x1000)
                            {| device := 0xc302; irq := 11 |}
                            (boot Single.card_zero)))))
            Hin _ _).
  - vm_compute. reflexivity.
  - vm_compute. reflexivity.
Defined.

(** ** The order of the teardown (C8) *)

(** The order of the specification is met by a teardown that releases
    region 0 before it disables the bus device. *)
Example spec_detach_order_accepts :
  spec_detach_order
    [unregister_sja1000dev_ev 0%nat; free_sja1000dev_ev 0%nat;
     pci_disable_msi_ev; pci_iounmap_ev 0x1000; pci_release_region_ev 0;
     pci_disable_device_ev; kfree_ev]
  = true.
Proof. reflexivity. Qed.

(** C8, as stated, fails: detaching a card with one port, the bus device
    is disabled before region 0 is released, so the calls are not in the
    order ports, address spaces, bus device, record. *)
Lemma C8_spec_order_counterexample :
  spec_detach_order
    (trace (snd (Single.adv_remove
                   (snd (Single.adv_probe (env_all_ok 0x1000)
                           {| device := 0xc201; irq := 11 |}
                           (boot Single.card_zero))))))
  = false.
Proof. vm_compute. reflexivity. Qed.

(** C8, amended. [adv_remove] makes these calls, in this order: for every
    populated port slot, by increasing index, unregister then free the
    handle; then disable MSI; unmap the mapped region; disable the bus
    device; release region 0; free the card record. It changes neither
    the card record nor the handle counter. *)
Theorem C8_detach_order (w : world Single.adv_pci_card) :
  Single.adv_remove w =
    (tt,
     World (card w) (next_dev w)
       (trace w
        ++ flat_map (fun i => port_calls (Single.net_dev (card w) !! i)) (seq 0 4)
        ++ [pci_disable_msi_ev; pci_iounmap_ev (Single.can_addr (card w));
            pci_disable_device_ev; pci_release_region_ev 0; kfree_ev])).
Proof. exact (remove_trace w). Qed.

(** ** A second detach (C9) *)

(** C9, as stated, fails: a second [adv_remove] on the same card record
    frees the port handle, unmaps the mapping and frees the record again,
    after the first one released them. *)
Lemma C9_second_detach_counterexample :
  double_frees
    (trace (snd (Single.adv_remove
                   (snd (Single.adv_remove
                           (snd (Single.adv_probe (env_all_ok 0x1000)
                                   {| device := 0xc201; irq := 11 |}
                                   (boot Single.card_zero))))))))
  = [free_sja1000dev_ev 0%nat; pci_iounmap_ev 0x1000; kfree_ev].
Proof. vm_compute. reflexivity. Qed.

(** C9, amended. Detach is written to run once for an attached card: the
    detach that follows a successful attach makes no call on something the
    driver does not hold, so nothing is freed or unmapped twice. It is not
    idempotent: it leaves the card record as it was (port slots and mapped
    address are not cleared), and a second detach makes the calls of the
    first once more. *)
Theorem C9_detach_once e pdev c w1 w2 :
  In (device pdev) Single.adv_pci_tbl ->
  Single.adv_probe e pdev (boot c) = (0, w1) ->
  Single.adv_remove w1 = (tt, w2) ->
  misuses (trace w2) = [] /\
  card w2 = card w1 /\
  trace w2 = trace w1 ++ remove_calls (card w1) /\
  trace (snd (Single.adv_remove w2)) = trace w2 ++ remove_calls (card w1).
Proof.
  intros Hin Hp Hr.
  split; [exact (proj2 (single_attach_detach e pdev c w1 w2 Hin Hp Hr))|].
  rewrite remove_trace in Hr. injection Hr as <-.
  rewrite remove_trace. cbn [card trace snd]. repeat split.
Qed.

Lemma C9_detach_once_witness :
  misuses
    (trace (snd (Single.adv_remove
                   (snd (Single.adv_probe (env_all_ok 0x1000)
                           {| device := 0xc201; irq := 11 |}
                           (boot Single.card_zero))))))
  = [].
Proof.
  assert (Hin : In (device {| device := 0xc201; irq := 11 |}) Single.adv_pci_tbl).
  { cbn. left. reflexivity. }
  refine (proj1 (C9_detach_once (env_all_ok 0x1000)
           {| device := 0xc201; irq := 11 |} Single.card_zero
           (snd (Single.adv_probe (env_all_ok 0x1000)
                   {| device := 0xc201; irq := 11 |} (boot Single.card_zero)))
           (snd (Single.adv_remove
                   (snd (Single.adv_probe (env_all_ok 0x1000)
                           {| device := 0xc201; irq := 11 |}
                           (boot Single.card_zero)))))
           Hin _ _)).
  - vm_compute. reflexivity.
  - vm_compute. reflexivity.
Defined.

(** ** Failures during attach (C1, C2, C6) *)

(** A port loop of [Single.adv_probe] that fails has run [m] successful
    iterations and then the failing one; the handle of a port whose
    registration failed is left in its slot. *)
Lemma probe_ports_fail_shape e pdev n : forall i w,
  ports_ok e i n = false ->
  exists m,
    (m < n)%nat /\ port_fail_code e (i + m) <> 0 /\
    Single.probe_ports e pdev n i w =
      (Some (port_fail_code e (i + m)),
       World {| Single.can_addr := Single.can_addr (card w);
                Single.net_dev :=
                  fill_slots (Single.net_dev (card w)) i (next_dev w)
                    (if alloc_ok e (i + m) then S m else m) |}
             (next_dev w + (if alloc_ok e (i + m) then S m else m))%nat
             (trace w
              ++ port_ok_calls pdev (Single.can_addr (card w)) i (next_dev w) m
              ++ port_fail_calls e pdev (Single.can_addr (card w)) (i + m)
                   (next_dev w + m))).
Proof.
  induction n as [|n IH]; intros i [c k tr] Hok; [discriminate|].
  unfold ports_ok in Hok. cbn [seq forallb] in Hok.
  cbn [Single.probe_ports]. mrun.
  destruct (alloc_ok e i) eqn:Ha; mrun.
  - cbn [dev_id Single.port_priv].
    destruct (register_ret e i =? 0) eqn:Hr.
    + cbn [andb] in Hok.
      match goal with
      | |- context [Single.probe_ports e pdev n (S i) ?w] =>
          destruct (IH (S i) w Hok) as (m & Hm & Hne & ->)
      end.
      exists (S m). cbn [card next_dev trace Single.can_addr Single.net_dev].
      rewrite ?Nat.add_succ_r in *. cbn [Nat.add] in *.
      split; [lia|]. split; [exact Hne|].
      apply Z.eqb_eq in Hr. rewrite Hr.
      cbn [port_ok_calls]. rewrite <- !app_assoc. cbn [app].
      destruct (alloc_ok e (S (i + m))); cbn [fill_slots];
        rewrite ?Nat.add_succ_r; reflexivity.
    + exists 0%nat. rewrite !Nat.add_0_r.
      unfold port_fail_code, port_fail_calls. rewrite Ha.
      apply Z.eqb_neq in Hr.
      split; [lia|]. split; [exact Hr|].
      cbn [fill_slots port_ok_calls app]. rewrite <- !app_assoc. cbn [app].
      rewrite Nat.add_1_r. cbn [card next_dev trace].
      rewrite <- !app_assoc. reflexivity.
  - exists 0%nat. rewrite !Nat.add_0_r.
    unfold port_fail_code, port_fail_calls. rewrite Ha.
    split; [lia|]. split; [unfold ENOMEM; lia|].
    cbn [fill_slots port_ok_calls app card next_dev trace].
    rewrite Nat.add_0_r. destruct c; reflexivity.
Qed.

(** X2. In [advantech_can_pci.c] an attach that fails, at whatever step,
    ends with nothing held. *)
Lemma single_failure_holds_nothing e pdev c :
  In (device pdev) Single.adv_pci_tbl ->
  fst (Single.adv_probe e pdev (boot c)) <> 0 ->
  held (trace (snd (Single.adv_probe e pdev (boot c)))) = nothing.
Proof.
  intros Hin. unfold Single.adv_probe, boot. mrun.
  destruct (enable_ret e <? 0) eqn:Hen.
  { intros _. cbn -[Z.ltb Z.eqb]. rewrite Hen. reflexivity. }
  destruct (kzalloc_ok e) eqn:Hk; cbn [negb]; mrun.
  2:{ intros _. reflexivity. }
  destruct (request_region_ret e 0 =? 0) eqn:Hreq; cbn [negb]; mrun.
  2:{ intros _. rewrite remove_trace. cbn -[Z.ltb Z.eqb].
      rewrite ?Hen, ?Hreq. reflexivity. }
  destruct (iomap_ret e 0 =? 0) eqn:Hmap.
  { intros _. rewrite remove_trace. cbn -[Z.ltb Z.eqb].
    rewrite ?Hen, ?Hreq, ?Hmap. cbn -[Z.ltb Z.eqb].
    rewrite ?Hmap. reflexivity. }
  destruct (ports_ok e 0 (Single.port_count pdev)) eqn:Hok.
  { rewrite probe_ports_ok by exact Hok. cbn [fst]. congruence. }
  match goal with
  | |- context [Single.probe_ports e pdev ?n ?i ?w] =>
      destruct (probe_ports_fail_shape e pdev n i w Hok) as (m & Hm & Hne & ->)
  end.
  intros _. rewrite remove_trace.
  cbn [snd card trace next_dev Single.can_addr Single.net_dev].
  unfold port_fail_code, port_fail_calls in *. cbn [Nat.add] in *.
  destruct (tbl_cases pdev Hin) as [Hn | [Hn | Hn]]; rewrite Hn in Hm;
    repeat (destruct m as [|m]; [|try lia]); try lia;
    destruct (alloc_ok e _);
    try (apply Z.eqb_neq in Hne);
    cbn -[Z.ltb Z.eqb]; rewrite ?Hen, ?Hreq, ?Hmap, ?Hne, ?Z.eqb_refl;
    cbn -[Z.ltb Z.eqb];
    rewrite ?Hen, ?Hreq, ?Hmap, ?Hne, ?Z.eqb_refl; reflexivity.
Qed.



(** C2, at a failing input. [advantech_can_pci.c], device 0xc201,
    registration of port 0 fails with -ENODEV: [adv_probe] frees the
    handle, and the [adv_remove] it then runs finds the handle in its
    slot, unregisters it (it never was registered) and frees it a second
    time. *)
Theorem C2_register_failure_frees_twice :
  let run := Single.adv_probe (register_fails 0 (- ENODEV) (env_all_ok 0x1000))
               {| device := 0xc201; irq := 11 |} (boot Single.card_zero) in
  fst run = - ENODEV /\
  trace (snd run) =
    [pci_enable_device_ev 0; kzalloc_ev true; pci_set_drvdata_ev;
     pci_request_region_ev 0 0; pci_iomap_ev 0 0x1000;
     alloc_sja1000dev_ev (Some 0%nat);
     register_sja1000dev_ev 0%nat
       (Single.port_priv {| device := 0xc201; irq := 11 |}
          {| Single.can_addr := 0x1000; Single.net_dev := [] |} 0) (- ENODEV);
     free_sja1000dev_ev 0%nat;
     unregister_sja1000dev_ev 0%nat; free_sja1000dev_ev 0%nat;
     pci_disable_msi_ev; pci_iounmap_ev 0x1000; pci_disable_device_ev;
     pci_release_region_ev 0; kfree_ev] /\
  misuses (trace (snd run)) =
    [unregister_sja1000dev_ev 0%nat; free_sja1000dev_ev 0%nat].
Proof. vm_compute. repeat split. Qed.

(** The part of C6 that holds: when every reservation succeeds,
    [adv_alloc_io] asks for the regions 2, 3, ..., one per port, in this
    order, and returns 0. *)
Lemma alloc_io_loop_requests e n : forall i w,
  (forall j, (i <= j < i + n)%nat -> request_region_ret e (2 + j) = 0) ->
  Multi.alloc_io_loop e n i 0 w =
    (0, World (card w) (next_dev w)
          (trace w ++ map (fun j => pci_request_region_ev (2 + j) 0) (seq i n))).
Proof.
  induction n as [|n IH]; intros i [c k tr] Hok.
  - cbn. unfold ret. rewrite app_nil_r. reflexivity.
  - cbn [Multi.alloc_io_loop]. mrun.
    rewrite (Hok i) by lia. cbn [Z.eqb negb].
    rewrite IH by (intros j Hj; apply Hok; lia).
    cbn [card next_dev trace map]. rewrite <- app_assoc. reflexivity.
Qed.

Lemma alloc_io_requests e b w :
  Multi.card_data_ptr (card w) = Some b ->
  (forall j, request_region_ret e j = 0) ->
  Multi.adv_alloc_io e w =
    (0, World (card w) (next_dev w)
          (trace w ++ map (fun j => pci_request_region_ev (2 + j) 0)
                        (seq 0 (Z.to_nat (Multi.ports (Multi.card_data b)))))).
Proof.
  intros Hb Hok. unfold Multi.adv_alloc_io, Multi.card_ports. mrun.
  rewrite Hb. apply alloc_io_loop_requests. intros j _. apply Hok.
Qed.

Example alloc_io_four_ports :
  requested_regions
    (trace (snd (Multi.adv_alloc_io (env_all_ok 0x1000)
                   (boot {| Multi.card_data_ptr := Some Multi.c004;
                            Multi.bar_addr := [0; 0];
                            Multi.net_dev := [None; None; None; None] |}))))
  = [2; 3; 4; 5]%nat.
Proof. reflexivity. Qed.

(** C6, at a failing input. Board pci_1680 (two I/O port regions), the
    reservation of region 2 succeeds and that of region 3 fails with
    -EBUSY: [adv_alloc_io] returns -EBUSY after these two calls, without a
    release, and region 2 stays reserved. *)
Theorem C6_alloc_io_failure_keeps_regions :
  let run := Multi.adv_alloc_io (request_fails 3 (- EBUSY) (env_all_ok 0x1000))
               (boot {| Multi.card_data_ptr := Some Multi.pci_1680;
                        Multi.bar_addr := [0; 0];
                        Multi.net_dev := [None; None; None; None] |}) in
  fst run = - EBUSY /\
  trace (snd run) =
    [pci_request_region_ev 2 0; pci_request_region_ev 3 (- EBUSY)] /\
  regions (held (trace (snd run))) = [2%nat].
Proof. vm_compute. repeat split. Qed.

(** * Further properties of the two files *)

(** ** Outcome of an attach *)

(** X1. [adv_probe] of [advantech_can_pci.c] returns 0 exactly when every
    call it makes succeeds: the device is enabled, the card record is
    allocated, region 0 is reserved and mapped, and every port below
    [device & 0xf] is allocated and registered. *)
Theorem single_probe_zero_iff e pdev c :
  fst (Single.adv_probe e pdev (boot c)) = 0 <->
  (enable_ret e <? 0) = false /\ kzalloc_ok e = true /\
  request_region_ret e 0 = 0 /\ iomap_ret e 0 <> 0 /\
  ports_ok e 0 (Single.port_count pdev) = true.
Proof.
  unfold Single.adv_probe, boot. mrun.
  destruct (enable_ret e <? 0) eqn:Hen.
  { cbn [fst]. unfold ENODEV. split; [lia | intros (H & _); discriminate]. }
  destruct (kzalloc_ok e) eqn:Hk; cbn [negb]; mrun.
  2:{ cbn [fst]. unfold ENOMEM.
      split; [lia | intros (_ & H & _); discriminate]. }
  destruct (request_region_ret e 0 =? 0) eqn:Hreq; cbn [negb]; mrun.
  2:{ rewrite remove_trace. cbn [fst]. apply Z.eqb_neq in Hreq.
      split; [contradiction | intros (_ & _ & H & _); contradiction]. }
  apply Z.eqb_eq in Hreq.
  destruct (iomap_ret e 0 =? 0) eqn:Hmap.
  { rewrite remove_trace. cbn [fst]. apply Z.eqb_eq in Hmap. unfold ENOMEM.
    split; [lia | intros (_ & _ & _ & H & _); contradiction]. }
  apply Z.eqb_neq in Hmap.
  destruct (ports_ok e 0 (Single.port_count pdev)) eqn:Hok.
  - rewrite probe_ports_ok by exact Hok. cbn [fst]. tauto.
  - match goal with
    | |- context [Single.probe_ports e pdev ?n ?i ?w] =>
        destruct (probe_ports_failed e pdev n i w Hok) as (err & w' & -> & Hne)
    end.
    rewrite remove_trace. cbn [fst].
    split; [contradiction | intros (_ & _ & _ & _ & H); discriminate].
Qed.

(** X3. Failures of [adv_probe] of [advantech_can_pci.c] before the port
    loop, with the code returned and the calls made. A failed enable
    returns -ENODEV after that one call. A failed allocation of the card
    record returns -ENOMEM after disabling the device. A failed
    reservation of region 0 returns the code of [pci_request_region]
    unchanged, and a mapping that fails returns -ENOMEM; in both cases
    [adv_remove] runs first and, on a zeroed card record, unmaps the NULL
    address; after a failed reservation it also releases region 0, which
    the driver does not hold. *)
Theorem single_early_failures e pdev c :
  ((enable_ret e <? 0) = true ->
   Single.adv_probe e pdev (boot c) =
     (- ENODEV, World c 0%nat [pci_enable_device_ev (enable_ret e)]))
  /\
  ((enable_ret e <? 0) = false -> kzalloc_ok e = false ->
   Single.adv_probe e pdev (boot c) =
     (- ENOMEM,
      World c 0%nat [pci_enable_device_ev (enable_ret e); kzalloc_ev false;
                     pci_disable_device_ev]))
  /\
  ((enable_ret e <? 0) = false -> kzalloc_ok e = true ->
   request_region_ret e 0 <> 0 ->
   let run := Single.adv_probe e pdev (boot c) in
   fst run = request_region_ret e 0 /\
   card (snd run) = Single.card_zero /\
   trace (snd run) =
     [pci_enable_device_ev (enable_ret e); kzalloc_ev true; pci_set_drvdata_ev;
      pci_request_region_ev 0 (request_region_ret e 0);
      pci_disable_msi_ev; pci_iounmap_ev 0; pci_disable_device_ev;
      pci_release_region_ev 0; kfree_ev] /\
   misuses (trace (snd run)) = [pci_iounmap_ev 0; pci_release_region_ev 0])
  /\
  ((enable_ret e <? 0) = false -> kzalloc_ok e = true ->
   request_region_ret e 0 = 0 -> iomap_ret e 0 = 0 ->
   let run := Single.adv_probe e pdev (boot c) in
   fst run = - ENOMEM /\
   trace (snd run) =
     [pci_enable_device_ev (enable_ret e); kzalloc_ev true; pci_set_drvdata_ev;
      pci_request_region_ev 0 0; pci_iomap_ev 0 0;
      pci_disable_msi_ev; pci_iounmap_ev 0; pci_disable_device_ev;
      pci_release_region_ev 0; kfree_ev] /\
   misuses (trace (snd run)) = [pci_iounmap_ev 0]).
Proof.
  unfold Single.adv_probe, boot. mrun.
  split; [|split; [|split]].
  - intros ->. reflexivity.
  - intros -> ->. reflexivity.
  - intros Hen -> Hreq. rewrite Hen. cbn [negb]. mrun.
    apply Z.eqb_neq in Hreq. rewrite Hreq. cbn [negb].
    rewrite remove_trace. cbn -[Z.eqb Z.ltb].
    rewrite Hen, Hreq. cbn. repeat split.
  - intros Hen -> Hreq Hmap. rewrite Hen. cbn [negb]. mrun.
    rewrite Hreq, Hmap. cbn [Z.eqb negb].
    rewrite remove_trace. cbn -[Z.eqb Z.ltb]. rewrite Hen. cbn.
    repeat split.
Qed.

Lemma single_early_failures_witness :
  fst (Single.adv_probe (request_fails 0 (- EBUSY) (env_all_ok 0x1000))
         {| device := 0xc202; irq := 11 |} (boot Single.card_zero))
  = - EBUSY.
Proof.
  refine (proj1 (proj1 (proj2 (proj2
            (single_early_failures (request_fails 0 (- EBUSY) (env_all_ok 0x1000))
               {| device := 0xc202; irq := 11 |} Single.card_zero)))
            _ _ _)).
  - reflexivity.
  - reflexivity.
  - vm_compute. discriminate.
Defined.

(** ** A port that fails *)

(** Evaluate what a trace holds, using the tests on the environment that
    are among the hypotheses. *)
Ltac settle :=
  repeat (progress
            (cbn -[Z.eqb Z.ltb]; rewrite ?Z.eqb_refl;
             repeat match goal with
                    | E : ?t = _ |- context [?t] =>
                        lazymatch t with
                        | (_ =? _) => rewrite E
                        | (_ <? _) => rewrite E
                        end
                    end)).

(** X15. In [advantech_can_pci.c], when everything before the port loop
    succeeds and a port fails, the first port to fail decides the
    outcome. If its allocation fails, [adv_probe] returns -ENOMEM and the
    rollback makes no call on something not held. If its registration
    fails, [adv_probe] returns the code of [register_sja1000dev]
    unchanged, and the rollback unregisters and frees the handle of that
    port although it was never registered and has just been freed. *)
Theorem single_port_failure e pdev c :
  In (device pdev) Single.adv_pci_tbl ->
  (enable_ret e <? 0) = false -> kzalloc_ok e = true ->
  request_region_ret e 0 = 0 -> iomap_ret e 0 <> 0 ->
  ports_ok e 0 (Single.port_count pdev) = false ->
  let run := Single.adv_probe e pdev (boot c) in
  exists m,
    (m < Single.port_count pdev)%nat /\
    ((alloc_ok e m = false /\ fst run = - ENOMEM /\
      misuses (trace (snd run)) = [])
     \/
     (alloc_ok e m = true /\ register_ret e m <> 0 /\
      fst run = register_ret e m /\
      misuses (trace (snd run))
      = [unregister_sja1000dev_ev m; free_sja1000dev_ev m])).
Proof.
  intros Hin Hen Hk Hreq Hmap Hok.
  unfold Single.adv_probe, boot. mrun.
  rewrite Hen, Hk. cbn [negb]. mrun. rewrite Hreq. cbn [Z.eqb negb].
  apply Z.eqb_neq in Hmap. rewrite Hmap.
  match goal with
  | |- context [Single.probe_ports e pdev ?n ?i ?w] =>
      destruct (probe_ports_fail_shape e pdev n i w Hok) as (m & Hm & Hne & ->)
  end.
  rewrite remove_trace.
  cbn [fst snd card trace next_dev Single.can_addr Single.net_dev Nat.add] in *.
  exists m. split; [exact Hm|].
  unfold port_fail_code, port_fail_calls in *.
  destruct (alloc_ok e m) eqn:Ha; [right | left];
    (split; [reflexivity|]);
    [split; [exact Hne|]; split; [reflexivity|] | split; [reflexivity|]];
    try (apply Z.eqb_neq in Hne);
    destruct (tbl_cases pdev Hin) as [Hn | [Hn | Hn]]; rewrite Hn in Hm;
    repeat (destruct m as [|m]; [|try lia]); try lia;
    settle; reflexivity.
Qed.

Lemma single_port_failure_witness :
  exists m,
    (m < Single.port_count {| device := 0xc202; irq := 11 |})%nat /\
    ((alloc_ok (register_fails 1 (- ENODEV) (env_all_ok 0x1000)) m = false /\
      fst (Single.adv_probe (register_fails 1 (- ENODEV) (env_all_ok 0x1000))
             {| device := 0xc202; irq := 11 |} (boot Single.card_zero))
      = - ENOMEM /\
      misuses (trace (snd (Single.adv_probe
                             (register_fails 1 (- ENODEV) (env_all_ok 0x1000))
                             {| device := 0xc202; irq := 11 |}
                             (boot Single.card_zero)))) = [])
     \/
     (alloc_ok (register_fails 1 (- ENODEV) (env_all_ok 0x1000)) m = true /\
      register_ret (register_fails 1 (- ENODEV) (env_all_ok 0x1000)) m <> 0 /\
      fst (Single.adv_probe (register_fails 1 (- ENODEV) (env_all_ok 0x1000))
             {| device := 0xc202; irq := 11 |} (boot Single.card_zero))
      = register_ret (register_fails 1 (- ENODEV) (env_all_ok 0x1000)) m /\
      misuses (trace (snd (Single.adv_probe
                             (register_fails 1 (- ENODEV) (env_all_ok 0x1000))
                             {| device := 0xc202; irq := 11 |}
                             (boot Single.card_zero))))
      = [unregister_sja1000dev_ev m; free_sja1000dev_ev m])).
Proof.
  assert (Hin : In (device {| device := 0xc202; irq := 11 |}) Single.adv_pci_tbl).
  { cbn. right. left. reflexivity. }
  refine (single_port_failure (register_fails 1 (- ENODEV) (env_all_ok 0x1000))
            {| device := 0xc202; irq := 11 |} Single.card_zero
            Hin _ _ _ _ _).
  - reflexivity.
  - reflexivity.
  - reflexivity.
  - vm_compute. discriminate.
  - reflexivity.
Defined.

(** ** What is handed to [register_sja1000dev] *)

(** Every device the port loop of [Single.adv_probe] registers carries
    the fields of [Single.port_priv] for its port, whatever the outcome of
    the loop. *)
Lemma probe_ports_privs e pdev n : forall i w r w',
  Single.probe_ports e pdev n i w = (r, w') ->
  exists evs,
    trace w' = trace w ++ evs /\
    Forall (fun p => exists j, (i <= j < i + n)%nat /\
                      p = Single.port_priv pdev
                            {| Single.can_addr := Single.can_addr (card w);
                               Single.net_dev := [] |} j)
           (registrations evs).
Proof.
  induction n as [|n IH]; intros i [c k tr] r w'.
  - intros [= <- <-]. exists []. cbn. rewrite app_nil_r. split; [reflexivity|].
    constructor.
  - cbn [Single.probe_ports]. mrun.
    destruct (alloc_ok e i); mrun.
    + cbn [dev_id Single.port_priv].
      destruct (register_ret e i =? 0).
      * intros Hrun. apply IH in Hrun as (evs & -> & Hf).
        cbn [card trace Single.can_addr] in *.
        eexists. rewrite <- !app_assoc. split; [reflexivity|].
        cbn [app registrations flat_map].
        constructor; [exists i; split; [lia | reflexivity]|].
        eapply Forall_impl; [exact Hf|].
        intros p (j & Hj & ->). exists j. split; [lia | reflexivity].
      * intros [= <- <-]. eexists. cbn [trace card Single.can_addr].
        rewrite <- !app_assoc. split; [reflexivity|].
        cbn [app registrations flat_map].
        constructor; [exists i; split; [lia | reflexivity]|constructor].
    + intros [= <- <-]. eexists. cbn [trace card]. split; [reflexivity|].
      constructor.
Qed.

Lemma single_probe_privs e pdev c priv :
  In priv (registrations (trace (snd (Single.adv_probe e pdev (boot c))))) ->
  exists j, (j < Single.port_count pdev)%nat /\
            priv = Single.port_priv pdev
                     {| Single.can_addr := iomap_ret e 0;
                        Single.net_dev := [] |} j.
Proof.
  unfold Single.adv_probe, boot. mrun.
  destruct (enable_ret e <? 0); [cbn; contradiction|].
  destruct (kzalloc_ok e); cbn [negb]; mrun; [|cbn; contradiction].
  destruct (request_region_ret e 0 =? 0); cbn [negb]; mrun.
  2:{ rewrite remove_trace. cbn [snd trace].
      rewrite registrations_app, registrations_remove_calls. cbn.
      contradiction. }
  destruct (iomap_ret e 0 =? 0).
  { rewrite remove_trace. cbn [snd trace].
    rewrite registrations_app, registrations_remove_calls. cbn.
    contradiction. }
  match goal with
  | |- context [Single.probe_ports e pdev ?n ?i ?w] =>
      destruct (Single.probe_ports e pdev n i w) as [r w'] eqn:Hrun
  end.
  apply probe_ports_privs in Hrun as (evs & Htr & Hf).
  cbn [card trace Single.can_addr] in Htr, Hf.
  assert (Hregs : forall tl, registrations tl = [] ->
            registrations (trace w' ++ tl) = registrations evs).
  { intros tl Htl. rewrite Htr, !registrations_app, Htl, app_nil_r.
    reflexivity. }
  assert (Hregs' : registrations (trace w') = registrations evs).
  { rewrite <- (app_nil_r (trace w')). apply Hregs. reflexivity. }
  rewrite Forall_forall in Hf.
  destruct r as [err|].
  - rewrite remove_trace. cbn [snd trace].
    rewrite Hregs by apply registrations_remove_calls.
    intros Hin. apply list_elem_of_In in Hin.
    destruct (Hf _ Hin) as (j & Hj & ->). exists j. split; [lia|reflexivity].
  - cbn [snd]. rewrite Hregs'.
    intros Hin. apply list_elem_of_In in Hin.
    destruct (Hf _ Hin) as (j & Hj & ->). exists j. split; [lia|reflexivity].
Qed.

(** X5. Every device [adv_probe] of [advantech_can_pci.c] hands to
    [register_sja1000dev], in every run, carries the same fixed settings:
    a clock of 8 MHz, the interrupt line of the PCI device, requested as
    shared, both transmit outputs push-pull in the output control
    register, comparator bypass and the clock-out mask in the clock
    divider register, and the memory accessors; and its [dev_id] is
    below the port count. *)
Theorem registered_settings e pdev c priv :
  In priv (registrations (trace (snd (Single.adv_probe e pdev (boot c))))) ->
  clock_freq priv = 8000000 /\ dev_irq priv = irq pdev /\
  irq_flags priv = [IRQF_SHARED] /\
  ocr priv = [OCR_TX0_PUSHPULL; OCR_TX1_PUSHPULL] /\
  cdr priv = [CDR_CBP; CDR_CLKOUT_MASK] /\
  regs priv = acc_mem /\
  (dev_id priv < Single.port_count pdev)%nat.
Proof.
  intros Hin.
  apply single_probe_privs in Hin as (j & Hj & ->).
  cbn. repeat split. exact Hj.
Qed.

Lemma registered_settings_witness :
  clock_freq
    (Single.port_priv {| device := 0xc202; irq := 11 |}
       {| Single.can_addr := 0x1000;
          Single.net_dev := [Some 0%nat; Some 1%nat; None; None] |} 1)
  = 8000000.
Proof.
  refine (proj1 (registered_settings (env_all_ok 0x1000)
                   {| device := 0xc202; irq := 11 |} Single.card_zero _ _)).
  vm_compute. right. left. reflexivity.
Defined.

(** ** Register accessors of the I/O port cards *)

(** X7. The I/O port accessors address register [r] at [reg_base + r],
    one byte per register: a write followed by a read of the same
    register returns the value written, a read of any other register
    returns what it returned before the write, and a read changes
    nothing. *)
Theorem io_accessors (priv : sja1000_priv) (r r' : Z) (v : byte)
    (m : gmap Z byte) :
  Multi.adv_write_reg_io priv r v m = (tt, <[reg_base priv + r := v]> m) /\
  fst (Multi.adv_read_reg_io priv r (snd (Multi.adv_write_reg_io priv r v m)))
    = v /\
  (r' <> r ->
   fst (Multi.adv_read_reg_io priv r' (snd (Multi.adv_write_reg_io priv r v m)))
     = fst (Multi.adv_read_reg_io priv r' m)) /\
  snd (Multi.adv_read_reg_io priv r m) = m.
Proof.
  unfold Multi.adv_write_reg_io, Multi.adv_read_reg_io, outb, inb, writeb, readb.
  cbn [fst snd]. split; [reflexivity|].
  split; [rewrite lookup_insert_eq; reflexivity|].
  split; [|reflexivity].
  intros Hne. rewrite lookup_insert_ne by lia. reflexivity.
Qed.

Lemma io_accessors_witness :
  fst (Multi.adv_read_reg_io
         (Multi.port_priv {| device := 0x1680; irq := 11 |}
            (Multi.card_data Multi.pci_1680) Multi.card_zero 0)
         6
         (snd (Multi.adv_write_reg_io
                 (Multi.port_priv {| device := 0x1680; irq := 11 |}
                    (Multi.card_data Multi.pci_1680) Multi.card_zero 0)
                 8 xda ∅)))
  = fst (Multi.adv_read_reg_io
           (Multi.port_priv {| device := 0x1680; irq := 11 |}
              (Multi.card_data Multi.pci_1680) Multi.card_zero 0)
           6 ∅).
Proof.
  refine (proj1 (proj2 (proj2
            (io_accessors
               (Multi.port_priv {| device := 0x1680; irq := 11 |}
                  (Multi.card_data Multi.pci_1680) Multi.card_zero 0)
               8 6 xda ∅))) _).
  lia.
Defined.

(** ** Isolation of ports and registers *)

(** X8. With the accessors of [advantech_can_pci.c], a write to register
    [r1] of port [p1] changes what a read of register [r2] of port [p2]
    returns only if it is the same register of the same port (ports below
    4, register offsets inside the 0x400 bytes of a port). *)
Theorem single_write_isolated (pdev : pci_dev) (c : Single.adv_pci_card)
    (p1 p2 : nat) (r1 r2 : Z) (v : byte) (m : gmap Z byte) :
  (p1 < 4)%nat -> (p2 < 4)%nat ->
  0 <= 4 * r1 < 0x400 -> 0 <= 4 * r2 < 0x400 ->
  (p1, r1) <> (p2, r2) ->
  fst (Single.adv_read_reg (Single.port_priv pdev c p2) r2
         (snd (Single.adv_write_reg (Single.port_priv pdev c p1) r1 v m)))
  = fst (Single.adv_read_reg (Single.port_priv pdev c p2) r2 m).
Proof.
  intros Hp1 Hp2 Hr1 Hr2 Hne.
  unfold Single.adv_read_reg, Single.adv_write_reg, readb, writeb,
    Single.port_priv.
  cbn [fst snd reg_base]. rewrite !int_wrap_small by lia.
  rewrite lookup_insert_ne; [reflexivity|].
  intros Heq. apply Hne.
  assert (p1 = p2) as -> by lia. f_equal. lia.
Qed.

Lemma single_write_isolated_witness :
  fst (Single.adv_read_reg
         (Single.port_priv {| device := 0xc202; irq := 11 |} Single.card_zero 1) 0
         (snd (Single.adv_write_reg
                 (Single.port_priv {| device := 0xc202; irq := 11 |}
                    Single.card_zero 0) 255 xff ∅)))
  = fst (Single.adv_read_reg
           (Single.port_priv {| device := 0xc202; irq := 11 |} Single.card_zero 1)
           0 ∅).
Proof.
  apply (single_write_isolated {| device := 0xc202; irq := 11 |}
           Single.card_zero 0 1 255 0 xff ∅); try lia.
  discriminate.
Defined.

(** ** Detach in the second file *)

(** X9. [adv_remove] of the second file makes these calls, in this
    order: for every populated port slot, by increasing index, unregister
    then free; disable MSI; unmap [bar_addr[0]] then [bar_addr[1]], each
    only if it is not NULL; disable the bus device; release region 0; free
    the card record. It never unmaps the NULL address, and leaves the card
    record and the handle counter as they are. *)
Theorem multi_detach_calls (w : world Multi.adv_pci_card) :
  Multi.adv_remove w =
    (tt,
     World (card w) (next_dev w)
       (trace w
        ++ flat_map (fun i => port_calls (Multi.net_dev (card w) !! i)) (seq 0 4)
        ++ [pci_disable_msi_ev]
        ++ flat_map (fun i => unmap_calls (Multi.bar_addr (card w) !! i)) (seq 0 2)
        ++ [pci_disable_device_ev; pci_release_region_ev 0; kfree_ev]))
  /\
  forall a, In (pci_iounmap_ev a) (trace (snd (Multi.adv_remove w))) ->
            In (pci_iounmap_ev a) (trace w) \/
            (a <> 0 /\ In a (Multi.bar_addr (card w))).
Proof.
  split; [exact (multi_remove_trace w)|].
  intros a. rewrite multi_remove_trace. cbn [snd trace].
  unfold multi_remove_calls. rewrite !in_app_iff.
  intros [Hin | [Hin | [Hin | [Hin | Hin]]]].
  - left. exact Hin.
  - apply in_flat_map in Hin as (i & _ & Hin).
    destruct (Multi.net_dev (card w) !! i) as [[d|]|]; cbn in Hin;
      intuition discriminate.
  - cbn in Hin. intuition discriminate.
  - right. apply in_flat_map in Hin as (i & _ & Hin).
    destruct (Multi.bar_addr (card w) !! i) as [a'|] eqn:Hl; cbn in Hin;
      [|contradiction].
    destruct (a' =? 0) eqn:Hz; cbn in Hin; [contradiction|].
    destruct Hin as [[= <-] | []].
    apply Z.eqb_neq in Hz. split; [exact Hz|].
    apply list_elem_of_In. eapply list_elem_of_lookup_2. exact Hl.
  - cbn in Hin. intuition discriminate.
Qed.

Lemma multi_detach_calls_witness :
  In (pci_iounmap_ev 0x1000)
     (trace (boot {| Multi.card_data_ptr := Some Multi.c001;
                     Multi.bar_addr := [0x1000; 0];
                     Multi.net_dev := [Some 0%nat; None; None; None] |}))
  \/ (0x1000 <> 0 /\ In 0x1000 [0x1000; 0]).
Proof.
  refine (proj2 (multi_detach_calls
                   (boot {| Multi.card_data_ptr := Some Multi.c001;
                            Multi.bar_addr := [0x1000; 0];
                            Multi.net_dev := [Some 0%nat; None; None; None] |}))
            0x1000 _).
  vm_compute. do 3 right. left. reflexivity.
Defined.

(** ** [adv_alloc_io] *)

Lemma alloc_io_loop_fails e n : forall i m err w,
  (m < n)%nat ->
  regions_ok e i m = true ->
  request_region_ret e (2 + (i + m)) <> 0 ->
  Multi.alloc_io_loop e n i err w =
    (request_region_ret e (2 + (i + m)),
     World (card w) (next_dev w)
       (trace w
        ++ map (fun j => pci_request_region_ev (2 + j) 0) (seq i m)
        ++ [pci_request_region_ev (2 + (i + m))
              (request_region_ret e (2 + (i + m)))])).
Proof.
  induction n as [|n IH]; intros i m err [c k tr] Hm Hok Hne; [lia|].
  cbn [Multi.alloc_io_loop]. mrun.
  destruct m as [|m].
  - rewrite Nat.add_0_r in *. apply Z.eqb_neq in Hne. rewrite Hne.
    cbn [negb seq map app]. reflexivity.
  - unfold regions_ok in Hok. cbn [seq forallb] in Hok.
    apply andb_true_iff in Hok as [Hi Hrest].
    rewrite Hi. cbn [negb]. apply Z.eqb_eq in Hi.
    replace (i + S m)%nat with (S i + m)%nat in * by lia.
    rewrite (IH (S i) m); [| lia | exact Hrest | exact Hne].
    cbn [card next_dev trace seq map].
    rewrite Hi, <- !app_assoc. reflexivity.
Qed.

(** X10. [adv_alloc_io] asks for the regions 2, 3, ... of the ports in
    increasing order and stops at the first reservation that fails. When
    all succeed it returns 0 after one request per port. When port [m] is
    the first to fail it returns the code of that request unchanged; the
    regions of the ports before [m] have been reserved, no later region is
    asked for, and nothing is released. *)
Theorem alloc_io_runs e b (w : world Multi.adv_pci_card) :
  Multi.card_data_ptr (card w) = Some b ->
  let n := Z.to_nat (Multi.ports (Multi.card_data b)) in
  (regions_ok e 0 n = true ->
   Multi.adv_alloc_io e w =
     (0, World (card w) (next_dev w)
           (trace w ++ map (fun j => pci_request_region_ev (2 + j) 0) (seq 0 n))))
  /\
  (forall m, (m < n)%nat -> regions_ok e 0 m = true ->
     request_region_ret e (2 + m) <> 0 ->
     Multi.adv_alloc_io e w =
       (request_region_ret e (2 + m),
        World (card w) (next_dev w)
          (trace w
           ++ map (fun j => pci_request_region_ev (2 + j) 0) (seq 0 m)
           ++ [pci_request_region_ev (2 + m) (request_region_ret e (2 + m))]))).
Proof.
  intros Hb n. unfold Multi.adv_alloc_io, Multi.card_ports. mrun.
  rewrite Hb. fold n. split.
  - intros Hok. apply alloc_io_loop_requests.
    intros j Hj. unfold regions_ok in Hok.
    rewrite forallb_forall in Hok. apply Z.eqb_eq.
    apply (Hok j). apply in_seq. lia.
  - intros m Hm Hok Hne.
    exact (alloc_io_loop_fails e n 0 m 0 w Hm Hok Hne).
Qed.

Lemma alloc_io_runs_witness :
  Multi.adv_alloc_io (request_fails 3 (- EBUSY) (env_all_ok 0x1000))
    (boot {| Multi.card_data_ptr := Some Multi.uno_2052;
             Multi.bar_addr := [0; 0];
             Multi.net_dev := [None; None; None; None] |})
  = (- EBUSY,
     World {| Multi.card_data_ptr := Some Multi.uno_2052;
              Multi.bar_addr := [0; 0];
              Multi.net_dev := [None; None; None; None] |} 0%nat
       [pci_request_region_ev 2 0; pci_request_region_ev 3 (- EBUSY)]).
Proof.
  refine (proj2 (alloc_io_runs (request_fails 3 (- EBUSY) (env_all_ok 0x1000))
                   Multi.uno_2052
                   (boot {| Multi.card_data_ptr := Some Multi.uno_2052;
                            Multi.bar_addr := [0; 0];
                            Multi.net_dev := [None; None; None; None] |})
                   eq_refl) 1%nat _ _ _).
  - vm_compute. lia.
  - reflexivity.
  - vm_compute. discriminate.
Defined.

(** ** The loop condition of the second file and [PORTS_MASK] *)

Lemma land_1_b2z mask : Z.land 1 mask = Z.b2z (Z.odd mask).
Proof.
  rewrite Z.land_comm. change 1 with (Z.ones 1) at 1.
  rewrite Z.land_ones by lia. change (2 ^ 1) with 2.
  rewrite Zmod_odd. destruct (Z.odd mask); reflexivity.
Qed.

(** X12. In the controlling expression
    [i < card_data->ports & PORTS_MASK] the comparison is evaluated
    first and its result, 0 or 1, is then masked. So the expression is 1
    when [i] is below [ports] and bit 0 of [PORTS_MASK] is set, and 0
    otherwise: the other bits of [PORTS_MASK] have no effect, and with an
    even [PORTS_MASK] the condition is false for every [i], whatever the
    number of ports. *)
Theorem ports_mask_bit0 :
  (forall mask cd i,
     Multi.loop_cond mask cd i
     = Z.b2z ((Z.of_nat i <? Multi.ports cd) && Z.odd mask))
  /\
  (forall mask cd i,
     Multi.loop_cond mask cd i <> 0 <->
     Z.of_nat i < Multi.ports cd /\ Z.odd mask = true)
  /\
  (forall m1 m2 cd i,
     Z.odd m1 = Z.odd m2 -> Multi.loop_cond m1 cd i = Multi.loop_cond m2 cd i).
Proof.
  assert (Hval : forall mask cd i,
    Multi.loop_cond mask cd i
    = Z.b2z ((Z.of_nat i <? Multi.ports cd) && Z.odd mask)).
  { intros mask cd i. unfold Multi.loop_cond.
    destruct (Z.of_nat i <? Multi.ports cd); cbn [Z.b2z andb].
    - apply land_1_b2z.
    - apply Z.land_0_l. }
  split; [exact Hval|]. split.
  - intros mask cd i. rewrite Hval.
    destruct (Z.of_nat i <? Multi.ports cd) eqn:Hlt;
      [apply Z.ltb_lt in Hlt | apply Z.ltb_ge in Hlt];
      destruct (Z.odd mask); cbn [andb Z.b2z];
      (split;
       [ intros H;
         first [exfalso; apply H; reflexivity | split; [lia | reflexivity]]
       | intros [H1 H2]; try discriminate; try lia ]).
  - intros m1 m2 cd i Hp. rewrite !Hval, Hp. reflexivity.
Qed.

(** ** The card record after an attach *)

(** X13. After an [adv_probe] of [advantech_can_pci.c] that returned 0,
    for a device of its table: the first [device & 0xf] port slots hold
    the handles of the ports in the order they were allocated, all
    different, the other slots are NULL, [can_addr] is the address
    [pci_iomap] returned, which is not NULL, and exactly these ports are
    allocated and registered. *)
Theorem single_attached_card e pdev c w :
  In (device pdev) Single.adv_pci_tbl ->
  Single.adv_probe e pdev (boot c) = (0, w) ->
  let n := Single.port_count pdev in
  Single.net_dev (card w) = map Some (seq 0 n) ++ replicate (4 - n) None /\
  Single.can_addr (card w) = iomap_ret e 0 /\
  iomap_ret e 0 <> 0 /\
  devs (held (trace w)) = rev (seq 0 n) /\
  registered (held (trace w)) = rev (seq 0 n) /\
  regions (held (trace w)) = [0%nat] /\
  maps (held (trace w)) = [iomap_ret e 0] /\
  misuses (trace w) = [].
Proof.
  intros Hin Hp.
  apply probe_success in Hp as (Hen & Hmap & _ & ->).
  cbn [card trace]. unfold probe_ok_calls, probe_ok_card.
  cbn [Single.net_dev Single.can_addr].
  assert (Hnz : iomap_ret e 0 <> 0) by (apply Z.eqb_neq; exact Hmap).
  destruct (tbl_cases pdev Hin) as [-> | [-> | ->]];
    cbn -[Z.eqb Z.ltb]; rewrite ?Hen, ?Hmap; cbn -[Z.eqb Z.ltb];
    repeat split; exact Hnz.
Qed.

Lemma single_attached_card_witness :
  Single.net_dev
    (card (snd (Single.adv_probe (env_all_ok 0x1000)
                  {| device := 0xc202; irq := 11 |} (boot Single.card_zero))))
  = map Some (seq 0 2) ++ replicate (4 - 2) None.
Proof.
  assert (Hin : In (device {| device := 0xc202; irq := 11 |}) Single.adv_pci_tbl).
  { cbn. right. left. reflexivity. }
  refine (proj1 (single_attached_card (env_all_ok 0x1000)
                   {| device := 0xc202; irq := 11 |} Single.card_zero
                   (snd (Single.adv_probe (env_all_ok 0x1000)
                           {| device := 0xc202; irq := 11 |}
                           (boot Single.card_zero)))
                   Hin _)).
  vm_compute. reflexivity.
Defined.

(** ** The tables *)

(** X14. The device table of the second file lists sixteen different
    device identities and gives each board of [enum board_id] exactly
    once, in the order of the declaration. Every board has at most four
    ports, the size of [net_dev]; an I/O port board has at most two, the
    size of [bar_addr], and no [iolength]. The six devices of
    [advantech_can_pci.c] are those the second file gives a memory-mapped
    board with 0x400 bytes per port and the port count of the device's low
    nibble. *)
Theorem tables_consistent :
  List.NoDup (map fst Multi.adv_pci_tbl) /\
  map snd Multi.adv_pci_tbl = all_boards /\
  (forall b, In b all_boards) /\
  (forall b, 1 <= Multi.ports (Multi.card_data b) <= 4) /\
  (forall b, Multi.port_space (Multi.card_data b) <> 0 ->
             Multi.ports (Multi.card_data b) <= 2 /\
             Multi.iolength (Multi.card_data b) = 0) /\
  (forall dev,
     In dev Single.adv_pci_tbl <->
     exists b, board_of dev = Some b /\
               Multi.port_space (Multi.card_data b) = 0 /\
               Multi.iolength (Multi.card_data b) = 0x400).
Proof.
  split; [|split; [|split; [|split; [|split]]]].
  - cbn. repeat constructor; cbn; intuition discriminate.
  - reflexivity.
  - intros b. destruct b; cbn; tauto.
  - intros b. destruct b; cbn; lia.
  - intros b. destruct b; cbn; intros H; try (split; [lia | reflexivity]);
      contradiction.
  - intros dev. split.
    + unfold Single.adv_pci_tbl. cbn [In].
      intros H. repeat destruct H as [<- | H]; try contradiction;
        eexists; (split; [reflexivity | split; reflexivity]).
    + intros (b & Hb & Hps & Hio).
      unfold board_of, Multi.adv_pci_tbl in Hb. cbn [List.find fst snd] in Hb.
      unfold Single.adv_pci_tbl. cbn [In].
      repeat match type of Hb with
             | context [if ?d =? ?k then _ else _] =>
                 destruct (Z.eqb_spec d k) as [-> | _];
                 [ injection Hb as <-; cbn in Hps, Hio;
                   first [ discriminate | tauto ] | ]
             end.
      discriminate.
Qed.

Lemma tables_consistent_witness :
  Multi.ports (Multi.card_data Multi.uno_2052) <= 2 /\
  Multi.iolength (Multi.card_data Multi.uno_2052) = 0.
Proof.
  refine (proj1 (proj2 (proj2 (proj2 (proj2 tables_consistent))))
            Multi.uno_2052 _).
  vm_compute. discriminate.
Defined.

(** X2 at an input: the allocation of the second port fails. *)
Lemma single_failure_holds_nothing_witness :
  held (trace (snd (Single.adv_probe (alloc_fails 1 (env_all_ok 0x1000))
                      {| device := 0xc302; irq := 11 |}
                      (boot Single.card_zero))))
  = nothing.
Proof.
  assert (Hin : In (device {| device := 0xc302; irq := 11 |}) Single.adv_pci_tbl).
  { cbn. do 4 right. left. reflexivity. }
  refine (single_failure_holds_nothing (alloc_fails 1 (env_all_ok 0x1000))
            {| device := 0xc302; irq := 11 |} Single.card_zero Hin _).
  vm_compute. discriminate.
Defined.
